(** * JurisGuard PII redactor: a shallow embedding of
      [app/scripts/pii_redactor.py] and the properties of its three functions
      [_get_engines], [secure_text] and [analyze_only].

    The module is glue around the Presidio library.  Presidio itself (the
    analyzer, the anonymizer, their constructors) is not part of the
    repository: it appears here as an environment [Env] of outcomes, about
    which nothing is assumed.  Everything the module does around those calls
    (the blank-input guard, the lazy singleton, the default allowlist, the
    operator table, the [try]/[except] handlers, the log records, the
    projection to dictionaries) is translated statement by statement. *)

From Stdlib Require Import ZArith NArith QArith List Ascii String Lia.
From stdpp Require Import base gmap strings list.

Local Close Scope Q_scope.
Local Open Scope string_scope.
Local Open Scope list_scope.

(** ** Python values the module handles *)

(** A Python [str] holding document text is a sequence of Unicode code
    points.  Identifiers of the module (entity types, dictionary keys,
    placeholder values) are written as the ASCII literals of the source. *)
Abbreviation Text := (list N).

Definition code_points (s : string) : Text :=
  map N_of_ascii (list_ascii_of_string s).

(** [str.isspace] on one code point, as CPython's [Py_UNICODE_ISSPACE]. *)
Definition isspace (c : N) : bool :=
  ((9 <=? c) && (c <=? 13) || (28 <=? c) && (c <=? 32)
   || (c =? 133) || (c =? 160) || (c =? 5760)
   || (8192 <=? c) && (c <=? 8202)
   || (c =? 8232) || (c =? 8233) || (c =? 8239) || (c =? 8287)
   || (c =? 12288))%N.

Fixpoint lstrip (t : Text) : Text :=
  match t with
  | c :: t' => if isspace c then lstrip t' else t
  | [] => []
  end.

Definition rstrip (t : Text) : Text := rev (lstrip (rev t)).

(** [text.strip()] with no argument. *)
Definition strip (t : Text) : Text := rstrip (lstrip t).

(** Truth value of a Python sequence: empty is false. *)
Definition truthy {A : Type} (l : list A) : bool :=
  match l with [] => false | _ :: _ => true end.

(** The guard [not text or not text.strip()] of both entry points. *)
Definition is_blank (text : Text) : bool :=
  negb (truthy text) || negb (truthy (strip text)).

(** [x or default] for an optional list: [None] and [[]] are both falsy. *)
Definition or_default {A : Type} (x : option (list A)) (default : list A) : list A :=
  match x with
  | Some (a :: l) => a :: l
  | Some [] => default
  | None => default
  end.

(** ** The Presidio side: what the module imports and does not define *)

(** The types of the library that the module only passes around: the two
    engine handles, the exceptions the library raises (any subclass of
    [Exception]) and the type of confidence scores (a Python float, never
    inspected by the module). *)
Class Presidio := {
  AnalyzerEngine : Type;
  AnonymizerEngine : Type;
  Exn : Type;
  Score : Type;
}.

(** [OperatorConfig(operator_name, params)]. *)
Record OperatorConfig := {
  operator_name : string;
  params : gmap string string;
}.

(** What a call returns: a value or a raised exception. *)
Inductive outcome (E A : Type) : Type :=
| Ok (a : A)
| Raise (e : E).
Arguments Ok {E A} a.
Arguments Raise {E A} e.

Section Model.
Context `{Presidio}.

(** [presidio_analyzer.RecognizerResult]: the fields the module reads. *)
Record RecognizerResult := {
  entity_type : string;
  start : Z;
  end_ : Z;
  score : Score;
}.

(** The anonymizer's result object; the module reads its [text]. *)
Record EngineResult := { er_text : Text }.

(** Exceptions that can be in flight inside the module: one raised by the
    library, the [RuntimeError] that [_get_engines] raises chained to its
    cause, and the [AttributeError] of a method call on [None]. *)
Inductive PyExn : Type :=
| LibraryError (e : Exn)
| RuntimeError (msg : string) (cause : PyExn)
| AttributeError (msg : string).

(** The behaviour of the library during one call of the module: what each
    constructor and each method yields if it is invoked.  Different calls
    may run under different environments (a model file that is missing now
    may be installed later). *)
Record Env := {
  new_AnalyzerEngine : outcome Exn AnalyzerEngine;
  new_AnonymizerEngine : outcome Exn AnonymizerEngine;
  analyze : AnalyzerEngine -> Text -> list string -> string ->
            outcome Exn (list RecognizerResult);
  anonymize : AnonymizerEngine -> Text -> list RecognizerResult ->
              gmap string OperatorConfig -> outcome Exn EngineResult;
}.

(** ** Module state, log records and the trace of library calls *)

(** The two module-level globals [_analyzer] and [_anonymizer]. *)
Record Globals := {
  _analyzer : option AnalyzerEngine;
  _anonymizer : option AnonymizerEngine;
}.

Definition initial_globals : Globals :=
  {| _analyzer := None; _anonymizer := None |}.

Inductive Level := INFO | WARNING | ERROR.

(** The log messages of the module, one constructor per format string, the
    interpolated values as arguments. *)
Inductive Message : Type :=
| Engines_initialized
| Failed_to_initialize (e : PyExn)
| No_PII_detected
| Redacted (n : nat) (entity_counts : list (string * Z))
| Error_during_redaction (e : PyExn)
| Returning_unredacted_text
| Error_during_analysis (e : PyExn).

(** What a call of the module does that is visible outside it: library
    constructors and methods invoked (with what they yielded) and records
    handed to the logger, in program order. *)
Inductive Event : Type :=
| Construct_AnalyzerEngine (r : outcome Exn AnalyzerEngine)
| Construct_AnonymizerEngine (r : outcome Exn AnonymizerEngine)
| Call_analyze (a : AnalyzerEngine) (text : Text) (entities : list string)
    (language : string) (r : outcome Exn (list RecognizerResult))
| Call_anonymize (b : AnonymizerEngine) (text : Text)
    (analyzer_results : list RecognizerResult)
    (operators : gmap string OperatorConfig) (r : outcome Exn EngineResult)
| Log (level : Level) (msg : Message).

(** ** A state, exception and trace monad for the module's statements *)

Record Run (A : Type) := {
  result : outcome PyExn A;
  final : Globals;
  events : list Event;
}.
Arguments result {A} r.
Arguments final {A} r.
Arguments events {A} r.
Arguments Build_Run {A} result final events.

Definition M (A : Type) : Type := Globals -> Run A.

Definition ret {A : Type} (a : A) : M A :=
  fun g => {| result := Ok a; final := g; events := [] |}.

Definition raise {A : Type} (e : PyExn) : M A :=
  fun g => {| result := Raise e; final := g; events := [] |}.

Definition bind {A B : Type} (m : M A) (k : A -> M B) : M B :=
  fun g =>
    let r := m g in
    match result r with
    | Ok a =>
        let r' := k a (final r) in
        {| result := result r'; final := final r';
           events := events r ++ events r' |}
    | Raise e => {| result := Raise e; final := final r; events := events r |}
    end.

(** [try: body except Exception as e: handler e].  Every [PyExn] stands
    for an instance of [Exception] (see [Exn]), so the handler sees each of
    them.  What is raised outside [Exception] ([KeyboardInterrupt],
    [SystemExit]) passes such a handler in Python and is not modelled:
    every statement below about what is raised or caught is about
    instances of [Exception]. *)
Definition try_except {A : Type} (body : M A) (handler : PyExn -> M A) : M A :=
  fun g =>
    let r := body g in
    match result r with
    | Ok a => r
    | Raise e =>
        let r' := handler e (final r) in
        {| result := result r'; final := final r';
           events := events r ++ events r' |}
    end.

Definition emit (ev : Event) : M unit :=
  fun g => {| result := Ok tt; final := g; events := [ev] |}.

Definition log (level : Level) (msg : Message) : M unit := emit (Log level msg).

Definition get_globals : M Globals :=
  fun g => {| result := Ok g; final := g; events := [] |}.

Definition set_analyzer (a : AnalyzerEngine) : M unit :=
  fun g => {| result := Ok tt;
              final := {| _analyzer := Some a; _anonymizer := _anonymizer g |};
              events := [] |}.

Definition set_anonymizer (b : AnonymizerEngine) : M unit :=
  fun g => {| result := Ok tt;
              final := {| _analyzer := _analyzer g; _anonymizer := Some b |};
              events := [] |}.

(** A library call: its outcome is recorded, a raised library exception
    becomes the exception in flight. *)
Definition library_call {A : Type} (ev : Event) (r : outcome Exn A) : M A :=
  fun g =>
    {| result := match r with Ok a => Ok a | Raise e => Raise (LibraryError e) end;
       final := g; events := [ev] |}.

End Model.

Arguments result {_ A} r.
Arguments final {_ A} r.
Arguments events {_ A} r.
Arguments Build_Run {_ A} result final events.

Notation "'let!' x ':=' c 'in' k" := (bind c (fun x => k))
  (at level 10, x pattern, c at level 100, k at level 200, only parsing).
Notation "c '>>!' k" := (bind c (fun _ => k))
  (at level 80, right associativity, only parsing).

(** ** The module's constants *)

(** [LEGAL_PII_ENTITIES]. *)
Definition LEGAL_PII_ENTITIES : list string := [
  "PERSON";
  "PHONE_NUMBER";
  "EMAIL_ADDRESS";
  "US_SSN";
  "IBAN_CODE";
  "CREDIT_CARD";
  "US_DRIVER_LICENSE";
  "US_PASSPORT";
  "IP_ADDRESS";
  "DATE_TIME";
  "LOCATION"
].

Definition replace_with (new_value : string) : OperatorConfig :=
  {| operator_name := "replace"; params := {[ "new_value" := new_value ]} |}.

(** [REDACTION_OPERATORS]: the dictionary literal, key by key. *)
Definition REDACTION_OPERATORS : gmap string OperatorConfig :=
  list_to_map [
    ("DEFAULT", replace_with "<REDACTED>");
    ("PERSON", replace_with "<PARTY>");
    ("PHONE_NUMBER", replace_with "<PHONE>");
    ("EMAIL_ADDRESS", replace_with "<EMAIL>");
    ("US_SSN", replace_with "<SSN_REDACTED>");
    ("IBAN_CODE", replace_with "<BANK_ACCOUNT>");
    ("CREDIT_CARD", replace_with "<CREDIT_CARD>");
    ("US_DRIVER_LICENSE", replace_with "<LICENSE>");
    ("US_PASSPORT", replace_with "<PASSPORT>");
    ("IP_ADDRESS", replace_with "<IP_ADDRESS>");
    ("LOCATION", replace_with "<ADDRESS>")
  ].

Definition init_failed_msg : string :=
  "PII engine initialization failed. Ensure spacy model is installed: python -m spacy download en_core_web_lg".

(** Python values stored in the dictionaries [analyze_only] returns. *)
Inductive PyVal `{Presidio} : Type :=
| PyStr (s : string)
| PyInt (z : Z)
| PyFloat (x : Score).

Section Redactor.
Context `{Presidio}.

(** ** [_get_engines] *)

(** The body of the [try] block: both constructors, each assigned to its
    global as soon as it returns, then the success record. *)
Definition construct_engines (env : Env) : M unit :=
  let! a := library_call (Construct_AnalyzerEngine (new_AnalyzerEngine env))
                         (new_AnalyzerEngine env) in
  set_analyzer a >>!
  let! b := library_call (Construct_AnonymizerEngine (new_AnonymizerEngine env))
                         (new_AnonymizerEngine env) in
  set_anonymizer b >>!
  log INFO Engines_initialized.

Definition is_None {A : Type} (x : option A) : bool :=
  match x with None => true | Some _ => false end.

Definition _get_engines (env : Env)
  : M (option AnalyzerEngine * option AnonymizerEngine) :=
  let! g := get_globals in
  (if is_None (_analyzer g) || is_None (_anonymizer g) then
     try_except (construct_engines env)
       (fun e =>
          log ERROR (Failed_to_initialize e) >>!
          raise (RuntimeError init_failed_msg e))
   else ret tt) >>!
  let! g' := get_globals in
  ret (_analyzer g', _anonymizer g').

(** ** Method calls on the handles [_get_engines] returned *)

Definition call_analyze (env : Env) (analyzer : option AnalyzerEngine)
    (text : Text) (entities : list string) (language : string)
  : M (list RecognizerResult) :=
  match analyzer with
  | Some a =>
      let r := analyze env a text entities language in
      library_call (Call_analyze a text entities language r) r
  | None => raise (AttributeError "'NoneType' object has no attribute 'analyze'")
  end.

Definition call_anonymize (env : Env) (anonymizer : option AnonymizerEngine)
    (text : Text) (analyzer_results : list RecognizerResult)
    (operators : gmap string OperatorConfig)
  : M EngineResult :=
  match anonymizer with
  | Some b =>
      let r := anonymize env b text analyzer_results operators in
      library_call (Call_anonymize b text analyzer_results operators r) r
  | None => raise (AttributeError "'NoneType' object has no attribute 'anonymize'")
  end.

(** ** [secure_text] *)

(** [d.get(k, 0)] and [d[k] = v] on a dictionary kept in insertion order. *)
Fixpoint dict_get (d : list (string * Z)) (k : string) (default : Z) : Z :=
  match d with
  | [] => default
  | (k', v) :: d' => if String.eqb k k' then v else dict_get d' k default
  end.

Fixpoint dict_set (d : list (string * Z)) (k : string) (v : Z) : list (string * Z) :=
  match d with
  | [] => [(k, v)]
  | (k', v') :: d' =>
      if String.eqb k k' then (k, v) :: d' else (k', v') :: dict_set d' k v
  end.

(** The statistics loop over [results]. *)
Definition count_entities (results : list RecognizerResult) : list (string * Z) :=
  fold_left
    (fun entity_counts result =>
       dict_set entity_counts (entity_type result)
                (dict_get entity_counts (entity_type result) 0 + 1)%Z)
    results [].

Definition secure_text (env : Env) (text : Text) (entities : option (list string))
  : M Text :=
  if is_blank text then ret []
  else
    let! engines := _get_engines env in
    let analyzer := fst engines in
    let anonymizer := snd engines in
    let target_entities := or_default entities LEGAL_PII_ENTITIES in
    try_except
      (let! results := call_analyze env analyzer text target_entities "en" in
       if negb (truthy results) then
         log INFO No_PII_detected >>!
         ret text
       else
         let! anonymized_result :=
           call_anonymize env anonymizer text results REDACTION_OPERATORS in
         let entity_counts := count_entities results in
         log INFO (Redacted (length results) entity_counts) >>!
         ret (er_text anonymized_result))
      (fun e =>
         log ERROR (Error_during_redaction e) >>!
         log WARNING Returning_unredacted_text >>!
         ret text).

(** ** [analyze_only] *)

(** The dictionary built for one result by the list comprehension. *)
Definition to_record (r : RecognizerResult) : gmap string PyVal :=
  list_to_map [
    ("entity_type", PyStr (entity_type r));
    ("start", PyInt (start r));
    ("end", PyInt (end_ r));
    ("score", PyFloat (score r))
  ].

Definition analyze_only (env : Env) (text : Text) (entities : option (list string))
  : M (list (gmap string PyVal)) :=
  if is_blank text then ret []
  else
    let! engines := _get_engines env in
    let analyzer := fst engines in
    let target_entities := or_default entities LEGAL_PII_ENTITIES in
    try_except
      (let! results := call_analyze env analyzer text target_entities "en" in
       ret (map to_record results))
      (fun e =>
         log ERROR (Error_during_analysis e) >>!
         ret []).

End Redactor.

(** ** Several threads inside [_get_engines]

    The module takes no lock.  To speak about concurrent callers,
    [_get_engines] is cut at the places where another thread can run between
    two of its statements; each piece is the corresponding fragment of
    [_get_engines] above, run on the shared globals.  The pieces are coarse
    (the test of line 37 reads both globals at once, a constructor call and
    the assignment of its result are one piece): a finer cut only adds
    interleavings. *)
Section Threads.
Context `{Presidio}.

Inductive Pc : Type :=
| At_check
| At_new_analyzer
| At_new_anonymizer
| At_log_success
| At_handler (e : PyExn)
| At_return
| Finished (r : outcome PyExn (option AnalyzerEngine * option AnonymizerEngine)).

(** One piece of [_get_engines] for a thread at [pc]: the statements it
    runs and the place it reaches.  A finished thread has no step. *)
Definition thread_step (env : Env) (pc : Pc) : option (M Pc) :=
  match pc with
  | At_check =>
      Some (let! g := get_globals in
            ret (if is_None (_analyzer g) || is_None (_anonymizer g)
                 then At_new_analyzer else At_return))
  | At_new_analyzer =>
      Some (try_except
              (let! a := library_call
                           (Construct_AnalyzerEngine (new_AnalyzerEngine env))
                           (new_AnalyzerEngine env) in
               set_analyzer a >>! ret At_new_anonymizer)
              (fun e => ret (At_handler e)))
  | At_new_anonymizer =>
      Some (try_except
              (let! b := library_call
                           (Construct_AnonymizerEngine (new_AnonymizerEngine env))
                           (new_AnonymizerEngine env) in
               set_anonymizer b >>! ret At_log_success)
              (fun e => ret (At_handler e)))
  | At_log_success => Some (log INFO Engines_initialized >>! ret At_return)
  | At_handler e =>
      Some (log ERROR (Failed_to_initialize e) >>!
            ret (Finished (Raise (RuntimeError init_failed_msg e))))
  | At_return =>
      Some (let! g' := get_globals in
            ret (Finished (Ok (_analyzer g', _anonymizer g'))))
  | Finished _ => None
  end.

(** The process: the shared globals, where each thread stands, and what
    has happened so far. *)
Record System := {
  shared : Globals;
  threads : list Pc;
  history : list Event;
}.

(** Thread [i] runs its next piece, the library behaving as [env]. *)
Definition step (i : nat) (env : Env) (s : System) : option System :=
  match threads s !! i with
  | Some pc =>
      match thread_step env pc with
      | Some m =>
          let r := m (shared s) in
          match result r with
          | Ok pc' =>
              Some {| shared := final r;
                      threads := <[i := pc']> (threads s);
                      history := history s ++ events r |}
          | Raise _ => None
          end
      | None => None
      end
  | None => None
  end.

(** A schedule names, step after step, the thread that runs and how the
    library behaves during that step. *)
Fixpoint run (schedule : list (nat * Env)) (s : System) : option System :=
  match schedule with
  | [] => Some s
  | (i, env) :: schedule' =>
      match step i env s with
      | Some s' => run schedule' s'
      | None => None
      end
  end.

(** [n] callers enter [_get_engines] before any engine exists. *)
Definition first_time_calls (n : nat) : System :=
  {| shared := initial_globals; threads := replicate n At_check; history := [] |}.

(** A single caller run to the end without interruption. *)
Fixpoint run_alone (fuel : nat) (env : Env) (s : System) : System :=
  match fuel with
  | O => s
  | S fuel' =>
      match step 0 env s with
      | Some s' => run_alone fuel' env s'
      | None => s
      end
  end.

Definition is_analyzer_construction (ev : Event) : bool :=
  match ev with Construct_AnalyzerEngine _ => true | _ => false end.

Definition is_anonymizer_construction (ev : Event) : bool :=
  match ev with Construct_AnonymizerEngine _ => true | _ => false end.

Definition analyzer_constructions (h : list Event) : nat :=
  length (List.filter is_analyzer_construction h).

Definition anonymizer_constructions (h : list Event) : nat :=
  length (List.filter is_anonymizer_construction h).

(** A thread that is past line 39 has called [AnalyzerEngine()] at most
    once; one that is not has not called it. *)
Definition past_new_analyzer (pc : Pc) : nat :=
  match pc with
  | At_check | At_new_analyzer => 0
  | _ => 1
  end.

Definition past_new_anonymizer (pc : Pc) : nat :=
  match pc with
  | At_check | At_new_analyzer | At_new_anonymizer => 0
  | _ => 1
  end.

(** Every construction recorded so far is accounted for by a thread that
    is past the corresponding constructor call. *)
Definition constructions_bounded (s : System) : Prop :=
  (analyzer_constructions (history s)
   <= sum_list (past_new_analyzer <$> threads s))%nat
  /\ (anonymizer_constructions (history s)
      <= sum_list (past_new_anonymizer <$> threads s))%nat.

End Threads.

(** ** Sequences of calls, and what a run shows *)
Section Observations.
Context `{Presidio}.





(** During the run the analyzer was invoked on [text] and returned
    [findings]. *)
Definition detection_yields {A : Type} (r : Run A) (text : Text)
    (findings : list RecognizerResult) : Prop :=
  exists a entities language,
    In (Call_analyze a text entities language (Ok findings)) (events r).

(** During the run the analyzer or the anonymizer raised [e]. *)
Definition detection_or_redaction_raised {A : Type} (r : Run A) (e : Exn) : Prop :=
  (exists a text entities language,
     In (Call_analyze a text entities language (Raise e)) (events r))
  \/ (exists b text results operators,
        In (Call_anonymize b text results operators (Raise e)) (events r)).

(** The four ways a call of [_get_engines] can go. *)
Inductive get_engines_spec (env : Env) (g : Globals)
  : Run (option AnalyzerEngine * option AnonymizerEngine) -> Prop :=
| Engines_cached a b :
    _analyzer g = Some a -> _anonymizer g = Some b ->
    get_engines_spec env g
      {| result := Ok (Some a, Some b); final := g; events := [] |}
| Engines_constructed a b :
    is_None (_analyzer g) || is_None (_anonymizer g) = true ->
    new_AnalyzerEngine env = Ok a -> new_AnonymizerEngine env = Ok b ->
    get_engines_spec env g
      {| result := Ok (Some a, Some b);
         final := {| _analyzer := Some a; _anonymizer := Some b |};
         events := [Construct_AnalyzerEngine (Ok a);
                    Construct_AnonymizerEngine (Ok b);
                    Log INFO Engines_initialized] |}
| Analyzer_failed e :
    is_None (_analyzer g) || is_None (_anonymizer g) = true ->
    new_AnalyzerEngine env = Raise e ->
    get_engines_spec env g
      {| result := Raise (RuntimeError init_failed_msg (LibraryError e));
         final := g;
         events := [Construct_AnalyzerEngine (Raise e);
                    Log ERROR (Failed_to_initialize (LibraryError e))] |}
| Anonymizer_failed a e :
    is_None (_analyzer g) || is_None (_anonymizer g) = true ->
    new_AnalyzerEngine env = Ok a -> new_AnonymizerEngine env = Raise e ->
    get_engines_spec env g
      {| result := Raise (RuntimeError init_failed_msg (LibraryError e));
         final := {| _analyzer := Some a; _anonymizer := _anonymizer g |};
         events := [Construct_AnalyzerEngine (Ok a);
                    Construct_AnonymizerEngine (Raise e);
                    Log ERROR (Failed_to_initialize (LibraryError e))] |}.

(** The ways a call of [secure_text] can go, given what its call of
    [_get_engines] did ([ge]). *)
Inductive secure_text_spec (env : Env) (text : Text)
    (entities : option (list string)) (g : Globals)
    (ge : Run (option AnalyzerEngine * option AnonymizerEngine))
  : Run Text -> Prop :=
| Secure_blank :
    is_blank text = true ->
    secure_text_spec env text entities g ge
      {| result := Ok []; final := g; events := [] |}
| Secure_no_engines e :
    is_blank text = false ->
    result ge = Raise e ->
    secure_text_spec env text entities g ge
      {| result := Raise e; final := final ge; events := events ge |}
| Secure_analysis_failed a b x :
    is_blank text = false ->
    result ge = Ok (Some a, Some b) ->
    analyze env a text (or_default entities LEGAL_PII_ENTITIES) "en" = Raise x ->
    secure_text_spec env text entities g ge
      {| result := Ok text; final := final ge;
         events := events ge ++
           [Call_analyze a text (or_default entities LEGAL_PII_ENTITIES) "en" (Raise x);
            Log ERROR (Error_during_redaction (LibraryError x));
            Log WARNING Returning_unredacted_text] |}
| Secure_nothing_found a b :
    is_blank text = false ->
    result ge = Ok (Some a, Some b) ->
    analyze env a text (or_default entities LEGAL_PII_ENTITIES) "en" = Ok [] ->
    secure_text_spec env text entities g ge
      {| result := Ok text; final := final ge;
         events := events ge ++
           [Call_analyze a text (or_default entities LEGAL_PII_ENTITIES) "en" (Ok []);
            Log INFO No_PII_detected] |}
| Secure_redacted a b results redacted :
    is_blank text = false ->
    result ge = Ok (Some a, Some b) ->
    analyze env a text (or_default entities LEGAL_PII_ENTITIES) "en" = Ok results ->
    results <> [] ->
    anonymize env b text results REDACTION_OPERATORS = Ok redacted ->
    secure_text_spec env text entities g ge
      {| result := Ok (er_text redacted); final := final ge;
         events := events ge ++
           [Call_analyze a text (or_default entities LEGAL_PII_ENTITIES) "en" (Ok results);
            Call_anonymize b text results REDACTION_OPERATORS (Ok redacted);
            Log INFO (Redacted (length results) (count_entities results))] |}
| Secure_redaction_failed a b results x :
    is_blank text = false ->
    result ge = Ok (Some a, Some b) ->
    analyze env a text (or_default entities LEGAL_PII_ENTITIES) "en" = Ok results ->
    results <> [] ->
    anonymize env b text results REDACTION_OPERATORS = Raise x ->
    secure_text_spec env text entities g ge
      {| result := Ok text; final := final ge;
         events := events ge ++
           [Call_analyze a text (or_default entities LEGAL_PII_ENTITIES) "en" (Ok results);
            Call_anonymize b text results REDACTION_OPERATORS (Raise x);
            Log ERROR (Error_during_redaction (LibraryError x));
            Log WARNING Returning_unredacted_text] |}.

(** The ways a call of [analyze_only] can go. *)
Inductive analyze_only_spec (env : Env) (text : Text)
    (entities : option (list string)) (g : Globals)
    (ge : Run (option AnalyzerEngine * option AnonymizerEngine))
  : Run (list (gmap string PyVal)) -> Prop :=
| Analyze_blank :
    is_blank text = true ->
    analyze_only_spec env text entities g ge
      {| result := Ok []; final := g; events := [] |}
| Analyze_no_engines e :
    is_blank text = false ->
    result ge = Raise e ->
    analyze_only_spec env text entities g ge
      {| result := Raise e; final := final ge; events := events ge |}
| Analyze_failed a b x :
    is_blank text = false ->
    result ge = Ok (Some a, Some b) ->
    analyze env a text (or_default entities LEGAL_PII_ENTITIES) "en" = Raise x ->
    analyze_only_spec env text entities g ge
      {| result := Ok []; final := final ge;
         events := events ge ++
           [Call_analyze a text (or_default entities LEGAL_PII_ENTITIES) "en" (Raise x);
            Log ERROR (Error_during_analysis (LibraryError x))] |}
| Analyze_reported a b results :
    is_blank text = false ->
    result ge = Ok (Some a, Some b) ->
    analyze env a text (or_default entities LEGAL_PII_ENTITIES) "en" = Ok results ->
    analyze_only_spec env text entities g ge
      {| result := Ok (map to_record results); final := final ge;
         events := events ge ++
           [Call_analyze a text (or_default entities LEGAL_PII_ENTITIES) "en" (Ok results)] |}.

(** Constructor calls and log records, as opposed to method calls on an
    engine. *)
Definition is_method_call (ev : Event) : bool :=
  match ev with
  | Call_analyze _ _ _ _ _ | Call_anonymize _ _ _ _ _ => true
  | _ => false
  end.

(** The exception with which construction fails under [env], if it does:
    the analyzer is constructed first. *)
Definition construction_failure (env : Env) : option Exn :=
  match new_AnalyzerEngine env, new_AnonymizerEngine env with
  | Raise e, _ => Some e
  | Ok _, Raise e => Some e
  | Ok _, Ok _ => None
  end.

(** The span a returned dictionary describes, when it has integer [start]
    and [end] entries. *)
Definition record_span (rec : gmap string PyVal) : option (Z * Z) :=
  match rec !! "start", rec !! "end" with
  | Some (PyInt s), Some (PyInt e) => Some (s, e)
  | _, _ => None
  end.

Definition span_of (r : RecognizerResult) : Z * Z := (start r, end_ r).

(** The spans a list of returned dictionaries describes. *)
Definition reported_spans (recs : list (gmap string PyVal)) : list (Z * Z) :=
  omap record_span recs.


End Observations.

(** The three properties of a list of spans over a text of length [len]:
    offsets in range, ascending by start, pairwise disjoint. *)
Definition offsets_valid (len : Z) (sp : Z * Z) : bool :=
  ((0 <=? fst sp) && (fst sp <? snd sp) && (snd sp <=? len))%Z.

Definition disjoint (p q : Z * Z) : bool :=
  ((snd p <=? fst q) || (snd q <=? fst p))%Z.

Fixpoint pairwise_disjoint (spans : list (Z * Z)) : bool :=
  match spans with
  | [] => true
  | p :: spans' => forallb (disjoint p) spans' && pairwise_disjoint spans'
  end.

Fixpoint ascending_start (spans : list (Z * Z)) : bool :=
  match spans with
  | p :: ((q :: _) as spans') => (fst p <=? fst q)%Z && ascending_start spans'
  | _ => true
  end.

Definition well_formed_findings (len : Z) (spans : list (Z * Z)) : bool :=
  forallb (offsets_valid len) spans && ascending_start spans
  && pairwise_disjoint spans.

(** Modelled from the spec: the lookup of a finding's replacement rule is
    done inside Presidio's anonymizer, which is not part of the repository;
    the spec gives it as: exact entity-type match, else DEFAULT. *)
Definition resolve_rule (operators : gmap string OperatorConfig)
    (entity : string) : option OperatorConfig :=
  match operators !! entity with
  | Some rule => Some rule
  | None => operators !! "DEFAULT"
  end.

(** ** A concrete library, for examples *)
Module Demo.

#[export] Instance presidio : Presidio :=
  {| AnalyzerEngine := nat; AnonymizerEngine := nat; Exn := string; Score := Q |}.

(** A library whose constructors yield [ctor_a] and [ctor_b], whose
    analyzer yields [found] and whose anonymizer yields [redacted]. *)
Definition library (ctor_a ctor_b : outcome string nat)
    (found : outcome string (list RecognizerResult))
    (redacted : outcome string Text) : Env :=
  {| new_AnalyzerEngine := ctor_a;
     new_AnonymizerEngine := ctor_b;
     analyze := fun _ _ _ _ => found;
     anonymize := fun _ _ _ _ =>
       match redacted with
       | Ok t => Ok {| er_text := t |}
       | Raise e => Raise e
       end |}.

Definition engines_ready : Globals :=
  {| _analyzer := Some 1%nat; _anonymizer := Some 2%nat |}.


Definition contact : Text :=
  code_points "Contact John Smith at john@email.com or 555-123-4567.".

Definition contact_redacted : Text :=
  code_points "Contact <PARTY> at <EMAIL> or <PHONE>.".

Definition contact_findings : list RecognizerResult := [
  {| entity_type := "PERSON"; start := 8; end_ := 18; score := (85 # 100)%Q |};
  {| entity_type := "EMAIL_ADDRESS"; start := 22; end_ := 36; score := 1%Q |};
  {| entity_type := "PHONE_NUMBER"; start := 40; end_ := 52; score := (75 # 100)%Q |}
].

(** Findings as an analyzer may give them: in no particular order, and two
    recognizers claiming the same digits. *)
Definition raw_findings : list RecognizerResult := [
  {| entity_type := "PHONE_NUMBER"; start := 40; end_ := 52; score := (75 # 100)%Q |};
  {| entity_type := "PERSON"; start := 8; end_ := 18; score := (85 # 100)%Q |};
  {| entity_type := "DATE_TIME"; start := 44; end_ := 52; score := (85 # 100)%Q |}
].

Definition healthy : Env :=
  library (Ok 1%nat) (Ok 2%nat) (Ok contact_findings) (Ok contact_redacted).


Definition model_missing : Env :=
  library (Raise "Can't find model 'en_core_web_lg'") (Ok 2%nat) (Ok []) (Ok []).

Definition analyzer_crashes : Env :=
  library (Ok 1%nat) (Ok 2%nat) (Raise "analysis failed") (Ok []).

Definition anonymizer_crashes : Env :=
  library (Ok 1%nat) (Ok 2%nat) (Ok contact_findings) (Raise "invalid operator").

Definition unresolved_overlaps : Env :=
  library (Ok 1%nat) (Ok 2%nat) (Ok raw_findings) (Ok contact_redacted).

(** A second pair of engine objects, as a second construction makes them. *)
Definition healthy_again : Env :=
  library (Ok 3%nat) (Ok 4%nat) (Ok contact_findings) (Ok contact_redacted).

(** Two threads: both pass the test of line 37 before either has assigned
    a global, then each constructs its own engines. *)
Definition racing_schedule : list (nat * Env) := [
  (0%nat, healthy); (1%nat, healthy_again);
  (0%nat, healthy); (0%nat, healthy); (0%nat, healthy); (0%nat, healthy);
  (1%nat, healthy_again); (1%nat, healthy_again); (1%nat, healthy_again);
  (1%nat, healthy_again)
].

End Demo.

(** * Properties *)
Section Properties.
Context `{Presidio}.

(** ** Blank input *)

Lemma lstrip_whitespace (t : Text) :
  Forall (fun c => isspace c = true) t -> lstrip t = [].
Proof.
  induction 1 as [| c t Hc _ IH]; simpl.
  - reflexivity.
  - rewrite Hc. exact IH.
Qed.

Lemma whitespace_is_blank (t : Text) :
  Forall (fun c => isspace c = true) t -> is_blank t = true.
Proof.
  intros Hws. unfold is_blank, strip, rstrip.
  rewrite (lstrip_whitespace t Hws). simpl.
  apply orb_true_r.
Qed.

Lemma secure_text_blank (env : Env) (text : Text) entities (g : Globals) :
  is_blank text = true ->
  secure_text env text entities g = {| result := Ok []; final := g; events := [] |}.
Proof. intros Hb. unfold secure_text. rewrite Hb. reflexivity. Qed.

Lemma analyze_only_blank (env : Env) (text : Text) entities (g : Globals) :
  is_blank text = true ->
  analyze_only env text entities g = {| result := Ok []; final := g; events := [] |}.
Proof. intros Hb. unfold analyze_only. rewrite Hb. reflexivity. Qed.

(** ** The engine accessor *)

Lemma _get_engines_spec (env : Env) (g : Globals) :
  get_engines_spec env g (_get_engines env g).
Proof.
  destruct env as [na nb an ano], g as [oa ob].
  destruct oa as [a |], ob as [b |].
  - by apply Engines_cached.
  - destruct na as [a' | e]; [destruct nb as [b' | e] |].
    + by apply (Engines_constructed _ _ a' b').
    + by apply (Anonymizer_failed _ _ a' e).
    + by apply (Analyzer_failed _ _ e).
  - destruct na as [a' | e]; [destruct nb as [b' | e] |].
    + by apply (Engines_constructed _ _ a' b').
    + by apply (Anonymizer_failed _ _ a' e).
    + by apply (Analyzer_failed _ _ e).
  - destruct na as [a' | e]; [destruct nb as [b' | e] |].
    + by apply (Engines_constructed _ _ a' b').
    + by apply (Anonymizer_failed _ _ a' e).
    + by apply (Analyzer_failed _ _ e).
Qed.

Lemma secure_text_cases (env : Env) (text : Text) entities (g : Globals) :
  secure_text_spec env text entities g (_get_engines env g)
    (secure_text env text entities g).
Proof.
  unfold secure_text.
  destruct (is_blank text) eqn:Hb; [by apply Secure_blank |].
  unfold bind at 1.
  destruct (_get_engines_spec env g) as [a b _ _ | a b _ _ _ | e _ _ | a e _ _ _];
    cbn [result final events fst snd].
  3, 4: by apply Secure_no_engines.
  all: unfold try_except, bind, call_analyze, library_call, log, emit, ret;
    cbn [result final events];
    destruct (analyze env a text (or_default entities LEGAL_PII_ENTITIES) "en")
      as [[| f fs] | x] eqn:Han;
    cbn [result final events negb truthy app];
    lazymatch goal with
    | |- secure_text_spec _ _ _ _ ?ge _ =>
        first
          [ by apply (Secure_nothing_found _ _ _ _ ge a b)
          | by apply (Secure_analysis_failed _ _ _ _ ge a b x)
          | unfold call_anonymize, library_call;
            destruct (anonymize env b text (f :: fs) REDACTION_OPERATORS)
              as [redacted | x] eqn:Hano;
            cbn [result final events app];
            [ by apply (Secure_redacted _ _ _ _ ge a b (f :: fs) redacted)
            | by apply (Secure_redaction_failed _ _ _ _ ge a b (f :: fs) x) ] ]
    end.
Qed.

Lemma analyze_only_cases (env : Env) (text : Text) entities (g : Globals) :
  analyze_only_spec env text entities g (_get_engines env g)
    (analyze_only env text entities g).
Proof.
  unfold analyze_only.
  destruct (is_blank text) eqn:Hb; [by apply Analyze_blank |].
  unfold bind at 1.
  destruct (_get_engines_spec env g) as [a b _ _ | a b _ _ _ | e _ _ | a e _ _ _];
    cbn [result final events fst snd].
  3, 4: by apply Analyze_no_engines.
  all: unfold try_except, bind, call_analyze, library_call, log, emit, ret;
    cbn [result final events];
    destruct (analyze env a text (or_default entities LEGAL_PII_ENTITIES) "en")
      as [results | x] eqn:Han;
    cbn [result final events app];
    lazymatch goal with
    | |- analyze_only_spec _ _ _ _ ?ge _ =>
        first
          [ by apply (Analyze_reported _ _ _ _ ge a b results)
          | by apply (Analyze_failed _ _ _ _ ge a b x) ]
    end.
Qed.

(** [_get_engines] invokes constructors and the logger, never a method of
    an engine. *)
Lemma get_engines_no_method_call (env : Env) (g : Globals) (ev : Event) :
  In ev (events (_get_engines env g)) -> is_method_call ev = false.
Proof.
  destruct (_get_engines_spec env g); cbn [events In];
    intros Hin; repeat destruct Hin as [<- | Hin]; done.
Qed.

(** Membership in the events of a call that got past [_get_engines]: an
    event of [_get_engines] or one of the listed events after it. *)
Ltac split_events Hin :=
  apply in_app_or in Hin;
  destruct Hin as [Hin | Hin];
  [ apply get_engines_no_method_call in Hin
  | cbn [In] in Hin; repeat destruct Hin as [Hin | Hin] ].


Lemma get_engines_failure (env : Env) (g : Globals) cause :
  is_None (_analyzer g) || is_None (_anonymizer g) = true ->
  construction_failure env = Some cause ->
  result (_get_engines env g)
    = Raise (RuntimeError init_failed_msg (LibraryError cause))
  /\ In (Log ERROR (Failed_to_initialize (LibraryError cause)))
        (events (_get_engines env g)).
Proof.
  unfold construction_failure.
  destruct (_get_engines_spec env g) as [a b Ha Hb | a b _ Ha Hb | e _ Ha | a e _ Ha Hb];
    cbn [result events]; intros Hnone Hc.
  - rewrite Ha, Hb in Hnone. discriminate Hnone.
  - rewrite Ha, Hb in Hc. discriminate Hc.
  - rewrite Ha in Hc. injection Hc as <-. split; [done | cbn; tauto].
  - rewrite Ha, Hb in Hc. injection Hc as <-. split; [done | cbn; tauto].
Qed.

(** The entry points assign the globals only through [_get_engines]. *)
Lemma entry_points_keep_globals (env : Env) (text : Text) entities (g : Globals) :
  (final (secure_text env text entities g) = g
   \/ final (secure_text env text entities g) = final (_get_engines env g))
  /\ (final (analyze_only env text entities g) = g
      \/ final (analyze_only env text entities g) = final (_get_engines env g)).
Proof.
  split.
  - destruct (secure_text_cases env text entities g); cbn [final]; tauto.
  - destruct (analyze_only_cases env text entities g); cbn [final]; tauto.
Qed.

(** The run of [secure_text] when the engines are there and the analyzer
    finds nothing on a non-blank text. *)
Lemma secure_text_nothing_found (env : Env) (text : Text) entities (g : Globals) a b :
  is_blank text = false ->
  result (_get_engines env g) = Ok (Some a, Some b) ->
  analyze env a text (or_default entities LEGAL_PII_ENTITIES) "en" = Ok [] ->
  secure_text env text entities g
  = {| result := Ok text; final := final (_get_engines env g);
       events := events (_get_engines env g) ++
         [Call_analyze a text (or_default entities LEGAL_PII_ENTITIES) "en" (Ok []);
          Log INFO No_PII_detected] |}.
Proof.
  intros Hb Hge Han.
  destruct (secure_text_cases env text entities g)
    as [Hb' | e Hb' Hge' | a' b' x Hb' Hge' Han' | a' b' Hb' Hge' Han'
        | a' b' results redacted Hb' Hge' Han' Hne Hano
        | a' b' results x Hb' Hge' Han' Hne Hano];
    try congruence;
    rewrite Hge in Hge'; simplify_eq;
    rewrite Han in Han'; by simplify_eq.
Qed.

(** ** The claims *)

(** C3: for empty or whitespace-only input, [secure_text] returns the empty
    string and [analyze_only] the empty list, and neither does anything
    else: no constructor, no method of an engine, no log record, the
    globals as they were.  In particular for the inputs of the spec:
    [secure_text("")], [secure_text("   ")] and [analyze_only("")]. *)
Theorem blank_input_returns_empty_without_engine
    (env : Env) (g : Globals) (entities : option (list string)) (text : Text) :
  Forall (fun c => isspace c = true) text ->
  (secure_text env text entities g
     = {| result := Ok []; final := g; events := [] |}
   /\ analyze_only env text entities g
     = {| result := Ok []; final := g; events := [] |})
  /\ secure_text env (code_points "") entities g
     = {| result := Ok (code_points ""); final := g; events := [] |}
  /\ secure_text env (code_points "   ") entities g
     = {| result := Ok (code_points ""); final := g; events := [] |}
  /\ analyze_only env (code_points "") entities g
     = {| result := Ok []; final := g; events := [] |}.
Proof.
  intros Hws. split; [| by repeat split].
  split.
  - apply secure_text_blank, whitespace_is_blank, Hws.
  - apply analyze_only_blank, whitespace_is_blank, Hws.
Qed.


(** C1, as the code has it: when the analyzer or the anonymizer raises
    during [secure_text], the call does not fail.  The handler logs the
    error and a security warning and returns the unredacted original text
    as the result. *)
Theorem detection_error_returns_original_text
    (env : Env) (text : Text) (entities : option (list string)) (g : Globals)
    (e : Exn) :
  detection_or_redaction_raised (secure_text env text entities g) e ->
  result (secure_text env text entities g) = Ok text
  /\ In (Log ERROR (Error_during_redaction (LibraryError e)))
        (events (secure_text env text entities g))
  /\ In (Log WARNING Returning_unredacted_text)
        (events (secure_text env text entities g)).
Proof.
  intros Hraised.
  destruct (secure_text_cases env text entities g)
    as [Hb | e' Hb Hge | a b x Hb Hge Han | a b Hb Hge Han
        | a b results redacted Hb Hge Han Hne Hano
        | a b results x Hb Hge Han Hne Hano];
    cbn [result events] in *;
    destruct Hraised as [(a0 & t & ents & lang & Hin) | (b0 & t & rs & ops & Hin)].
  all: try (destruct Hin; fail).
  all: try (by apply get_engines_no_method_call in Hin).
  all: split_events Hin; try done.
  all: simplify_eq.
  all: split; [done |]; split; apply in_or_app; right; cbn; tauto.
Qed.

(** C2, as the code has it: on non-blank text, when the engines are not
    yet there and a constructor raises, [secure_text] and [analyze_only]
    both fail with the [RuntimeError] of [_get_engines], chained to the
    cause, after logging it.  When instead the analyzer raises after
    initialization, [analyze_only] does not fail: it logs the error and
    returns the empty list. *)
Theorem engine_failure_behaviour
    (env : Env) (text : Text) (entities : option (list string)) (g : Globals) :
  (forall cause,
     is_blank text = false ->
     is_None (_analyzer g) || is_None (_anonymizer g) = true ->
     construction_failure env = Some cause ->
     result (secure_text env text entities g)
       = Raise (RuntimeError init_failed_msg (LibraryError cause))
     /\ result (analyze_only env text entities g)
       = Raise (RuntimeError init_failed_msg (LibraryError cause))
     /\ In (Log ERROR (Failed_to_initialize (LibraryError cause)))
           (events (secure_text env text entities g))
     /\ In (Log ERROR (Failed_to_initialize (LibraryError cause)))
           (events (analyze_only env text entities g)))
  /\ (forall x,
        detection_or_redaction_raised (analyze_only env text entities g) x ->
        result (analyze_only env text entities g) = Ok []
        /\ In (Log ERROR (Error_during_analysis (LibraryError x)))
              (events (analyze_only env text entities g))).
Proof.
  split.
  - intros cause Hb Hnone Hfail.
    destruct (get_engines_failure env g cause Hnone Hfail) as [Hr Hlog].
    destruct (secure_text_cases env text entities g);
      destruct (analyze_only_cases env text entities g);
      cbn [result events]; try congruence.
    repeat split; congruence || assumption.
  - intros x Hraised.
    destruct (analyze_only_cases env text entities g)
      as [Hb | e Hb Hge | a b x' Hb Hge Han | a b results Hb Hge Han];
      cbn [result events] in *;
      destruct Hraised as [(a0 & t & ents & lang & Hin) | (b0 & t & rs & ops & Hin)].
    all: try (destruct Hin; fail).
    all: try (by apply get_engines_no_method_call in Hin).
    all: split_events Hin; try done.
    simplify_eq.
    split; [done |]. apply in_or_app. right. cbn. tauto.
Qed.

(** ** Dictionaries of [analyze_only] *)

Lemma to_record_span (r : RecognizerResult) :
  record_span (to_record r) = Some (span_of r).
Proof. reflexivity. Qed.

Lemma reported_spans_to_record (results : list RecognizerResult) :
  reported_spans (map to_record results) = map span_of results.
Proof.
  unfold reported_spans.
  induction results as [| r results IH]; [reflexivity |].
  cbn [map omap list_omap]. rewrite to_record_span. cbn. by f_equal.
Qed.


(** What [analyze_only] returns is the projection of what the analyzer
    returned during the call, or empty when the analyzer did not return. *)
Lemma analyze_only_returns (env : Env) (text : Text) entities (g : Globals) recs :
  result (analyze_only env text entities g) = Ok recs ->
  exists results,
    recs = map to_record results
    /\ (results = []
        \/ detection_yields (analyze_only env text entities g) text results).
Proof.
  destruct (analyze_only_cases env text entities g)
    as [Hb | e Hb Hge | a b x' Hb Hge Han | a b results Hb Hge Han];
    cbn [result events]; intros Hr; simplify_eq.
  - exists []. by split; [| left].
  - exists []. by split; [| left].
  - exists results. split; [done |]. right.
    exists a, (or_default entities LEGAL_PII_ENTITIES), "en".
    apply in_or_app. right. cbn. tauto.
Qed.

(** What both entry points do on text that is not blank once
    [_get_engines] has returned the engines: the analyzer is called, and
    what it returns decides the result. *)
Lemma analyze_only_calls_analyzer
    (env : Env) (text : Text) (entities : option (list string)) (g : Globals)
    a b :
  is_blank text = false ->
  result (_get_engines env g) = Ok (Some a, Some b) ->
  In (Call_analyze a text (or_default entities LEGAL_PII_ENTITIES) "en"
        (analyze env a text (or_default entities LEGAL_PII_ENTITIES) "en"))
     (events (analyze_only env text entities g))
  /\ (forall results,
        analyze env a text (or_default entities LEGAL_PII_ENTITIES) "en"
        = Ok results ->
        result (analyze_only env text entities g) = Ok (map to_record results)).
Proof.
  intros Hb Hge.
  destruct (analyze_only_cases env text entities g)
    as [Hb' | e Hb' Hge' | a' b' x Hb' Hge' Han | a' b' results' Hb' Hge' Han];
    cbn [result events]; try congruence;
    rewrite Hge in Hge'; injection Hge' as <- <-; rewrite Han;
    (split; [apply in_or_app; right; cbn; tauto |]);
    intros results Heq; by simplify_eq.
Qed.

Lemma secure_text_calls_analyzer
    (env : Env) (text : Text) (entities : option (list string)) (g : Globals)
    a b :
  is_blank text = false ->
  result (_get_engines env g) = Ok (Some a, Some b) ->
  In (Call_analyze a text (or_default entities LEGAL_PII_ENTITIES) "en"
        (analyze env a text (or_default entities LEGAL_PII_ENTITIES) "en"))
     (events (secure_text env text entities g))
  /\ (forall results redacted,
        analyze env a text (or_default entities LEGAL_PII_ENTITIES) "en"
        = Ok results ->
        results <> [] ->
        anonymize env b text results REDACTION_OPERATORS = Ok redacted ->
        result (secure_text env text entities g) = Ok (er_text redacted)).
Proof.
  intros Hb Hge.
  destruct (secure_text_cases env text entities g)
    as [Hb' | e Hb' Hge' | a' b' x Hb' Hge' Han | a' b' Hb' Hge' Han
        | a' b' results' redacted' Hb' Hge' Han Hne Hano
        | a' b' results' x Hb' Hge' Han Hne Hano];
    cbn [result events]; try congruence;
    rewrite Hge in Hge'; injection Hge' as <- <-; rewrite Han;
    (split; [apply in_or_app; right; cbn; tauto |]);
    intros results redacted Heq Hnonempty Hredacted; simplify_eq;
    congruence.
Qed.

(** C5, as the code has it: [analyze_only] hands on the analyzer's
    findings exactly as the analyzer gave them, in the same order and with
    the same offsets.  Whatever the analyzer returns on the text is what
    the call returns, projected, be it unsorted, overlapping or out of
    range; a returned list is the projection of what the analyzer returned
    during the call, and is empty otherwise only if the analyzer returned
    nothing (blank input, or the analyzer raised).  So the output
    satisfies the three properties exactly when the analyzer's output
    does. *)
Theorem analyze_only_reports_findings_as_given
    (env : Env) (text : Text) (entities : option (list string)) (g : Globals) :
  (forall a b results,
     is_blank text = false ->
     result (_get_engines env g) = Ok (Some a, Some b) ->
     analyze env a text (or_default entities LEGAL_PII_ENTITIES) "en"
     = Ok results ->
     detection_yields (analyze_only env text entities g) text results
     /\ result (analyze_only env text entities g) = Ok (map to_record results))
  /\ (forall results,
        detection_yields (analyze_only env text entities g) text results ->
        result (analyze_only env text entities g) = Ok (map to_record results)
        /\ reported_spans (map to_record results) = map span_of results
        /\ well_formed_findings (Z.of_nat (length text))
             (reported_spans (map to_record results))
           = well_formed_findings (Z.of_nat (length text))
               (map span_of results))
  /\ (forall recs,
        result (analyze_only env text entities g) = Ok recs ->
        (exists results,
            detection_yields (analyze_only env text entities g) text results
            /\ recs = map to_record results
            /\ reported_spans recs = map span_of results
            /\ well_formed_findings (Z.of_nat (length text))
                 (reported_spans recs)
               = well_formed_findings (Z.of_nat (length text))
                   (map span_of results))
        \/ (recs = []
            /\ forall results,
                 ~ detection_yields (analyze_only env text entities g)
                     text results)).
Proof.
  split; [| split].
  - intros a b results Hb Hge Han.
    destruct (analyze_only_calls_analyzer env text entities g a b Hb Hge)
      as [Hin Hres].
    split; [| by apply Hres].
    exists a, (or_default entities LEGAL_PII_ENTITIES), "en".
    by rewrite <- Han.
  - intros results (a0 & ents & lang & Hin).
    rewrite reported_spans_to_record.
    destruct (analyze_only_cases env text entities g)
      as [Hb | e Hb Hge | a b x Hb Hge Han | a b results' Hb Hge Han];
      cbn [result events] in *.
    + destruct Hin.
    + by apply get_engines_no_method_call in Hin.
    + split_events Hin; done.
    + split_events Hin; try done. by simplify_eq.
  - intros recs Hr.
    destruct (analyze_only_cases env text entities g)
      as [Hb | e Hb Hge | a b x Hb Hge Han | a b results Hb Hge Han];
      cbn [result events] in *; simplify_eq.
    + right. split; [done |]. intros results (a0 & ents & lang & Hin).
      destruct Hin.
    + right. split; [done |]. intros results (a0 & ents & lang & Hin).
      split_events Hin; done.
    + left. exists results. rewrite reported_spans_to_record.
      repeat split; try done.
      exists a, (or_default entities LEGAL_PII_ENTITIES), "en".
      apply in_or_app. right. cbn. tauto.
Qed.


(** ** The operator table *)

Lemma resolve_rule_total (operators : gmap string OperatorConfig) (entity : string) :
  is_Some (operators !! "DEFAULT") -> is_Some (resolve_rule operators entity).
Proof. unfold resolve_rule. by destruct (operators !! entity). Qed.

(** C6: the lookup of a replacement rule in [REDACTION_OPERATORS] never
    fails.  Every entity type resolves to its own rule when the table has
    one and to the DEFAULT rule otherwise; DEFAULT is in the table;
    DATE_TIME has no rule of its own and resolves to the placeholder
    <REDACTED>; and the table the anonymizer receives from [secure_text] is
    this one, so every finding it is given resolves. *)
Theorem replacement_rule_lookup_never_fails :
  (forall entity : string, exists rule,
      resolve_rule REDACTION_OPERATORS entity = Some rule
      /\ (REDACTION_OPERATORS !! entity = Some rule
          \/ (REDACTION_OPERATORS !! entity = None
              /\ REDACTION_OPERATORS !! "DEFAULT" = Some rule)))
  /\ REDACTION_OPERATORS !! "DEFAULT" = Some (replace_with "<REDACTED>")
  /\ REDACTION_OPERATORS !! "DATE_TIME" = None
  /\ resolve_rule REDACTION_OPERATORS "DATE_TIME" = Some (replace_with "<REDACTED>")
  /\ (forall (env : Env) text entities g b t results operators r,
        In (Call_anonymize b t results operators r)
           (events (secure_text env text entities g)) ->
        operators = REDACTION_OPERATORS
        /\ Forall (fun finding =>
                     is_Some (resolve_rule operators (entity_type finding)))
                  results).
Proof.
  assert (Hdefault :
    REDACTION_OPERATORS !! "DEFAULT" = Some (replace_with "<REDACTED>"))
    by reflexivity.
  split; [| split; [exact Hdefault | split; [reflexivity | split; [reflexivity |]]]].
  - intros entity. unfold resolve_rule.
    destruct (REDACTION_OPERATORS !! entity) as [rule |] eqn:Hl.
    + exists rule. split; [done | by left].
    + exists (replace_with "<REDACTED>"). split; [done | by right].
  - intros env text entities g b t results operators r Hin.
    assert (operators = REDACTION_OPERATORS) as ->.
    { destruct (secure_text_cases env text entities g);
        cbn [events] in Hin.
      - destruct Hin.
      - by apply get_engines_no_method_call in Hin.
      - split_events Hin; done.
      - split_events Hin; done.
      - split_events Hin; try done. by simplify_eq.
      - split_events Hin; try done. by simplify_eq. }
    split; [done |].
    apply Forall_forall. intros finding _.
    apply resolve_rule_total. by rewrite Hdefault.
Qed.

(** ** The default allowlist *)

(** C10: an explicitly empty [entities] list behaves as an omitted one in
    both entry points, on every text: the runs are equal.  The list handed
    to the analyzer is then [LEGAL_PII_ENTITIES] with its 11 entity types,
    never the empty list; and detection is done with it: on text that is
    not blank, once [_get_engines] has returned the engines, both entry
    points call the analyzer for [LEGAL_PII_ENTITIES], [analyze_only]
    reports what it finds and [secure_text] returns the redaction of what
    it finds. *)
Theorem empty_entities_means_default_allowlist
    (env : Env) (text : Text) (g : Globals) :
  secure_text env text (Some []) g = secure_text env text None g
  /\ analyze_only env text (Some []) g = analyze_only env text None g
  /\ or_default (Some []) LEGAL_PII_ENTITIES = LEGAL_PII_ENTITIES
  /\ length LEGAL_PII_ENTITIES = 11%nat
  /\ (forall a t entities language r,
        In (Call_analyze a t entities language r)
           (events (secure_text env text (Some []) g))
        \/ In (Call_analyze a t entities language r)
             (events (analyze_only env text (Some []) g)) ->
        entities = LEGAL_PII_ENTITIES)
  /\ (forall a b,
        is_blank text = false ->
        result (_get_engines env g) = Ok (Some a, Some b) ->
        In (Call_analyze a text LEGAL_PII_ENTITIES "en"
              (analyze env a text LEGAL_PII_ENTITIES "en"))
           (events (secure_text env text (Some []) g))
        /\ In (Call_analyze a text LEGAL_PII_ENTITIES "en"
                 (analyze env a text LEGAL_PII_ENTITIES "en"))
              (events (analyze_only env text (Some []) g))
        /\ (forall results,
              analyze env a text LEGAL_PII_ENTITIES "en" = Ok results ->
              result (analyze_only env text (Some []) g)
              = Ok (map to_record results))
        /\ (forall results redacted,
              analyze env a text LEGAL_PII_ENTITIES "en" = Ok results ->
              results <> [] ->
              anonymize env b text results REDACTION_OPERATORS = Ok redacted ->
              result (secure_text env text (Some []) g)
              = Ok (er_text redacted))).
Proof.
  split; [reflexivity |]. split; [reflexivity |]. split; [reflexivity |].
  split; [reflexivity |]. split.
  - intros a t entities language r [Hin | Hin].
    + destruct (secure_text_cases env text (Some []) g); cbn [events] in Hin.
      * destruct Hin.
      * by apply get_engines_no_method_call in Hin.
      * split_events Hin; try done. by simplify_eq.
      * split_events Hin; try done. by simplify_eq.
      * split_events Hin; try done. by simplify_eq.
      * split_events Hin; try done. by simplify_eq.
    + destruct (analyze_only_cases env text (Some []) g); cbn [events] in Hin.
      * destruct Hin.
      * by apply get_engines_no_method_call in Hin.
      * split_events Hin; try done. by simplify_eq.
      * split_events Hin; try done. by simplify_eq.
  - intros a b Hb Hge.
    destruct (secure_text_calls_analyzer env text (Some []) g a b Hb Hge)
      as [Hs1 Hs2].
    destruct (analyze_only_calls_analyzer env text (Some []) g a b Hb Hge)
      as [Ha1 Ha2].
    cbn [or_default] in Hs1, Hs2, Ha1, Ha2.
    by repeat split.
Qed.

(** ** The lazy singleton, one caller at a time *)

Lemma get_engines_cached (env : Env) (g : Globals) a b :
  _analyzer g = Some a -> _anonymizer g = Some b ->
  _get_engines env g
  = {| result := Ok (Some a, Some b); final := g; events := [] |}.
Proof. destruct g as [oa ob]. cbn. by intros -> ->. Qed.











(** ** The lazy singleton under interleaving *)

(** A caller that nobody interrupts goes through the pieces in order and
    ends as [_get_engines] does: the pieces are a cut of that function. *)
Lemma run_alone_is_get_engines (env : Env) (g : Globals) :
  run_alone 5 env {| shared := g; threads := [At_check]; history := [] |}
  = {| shared := final (_get_engines env g);
       threads := [Finished (result (_get_engines env g))];
       history := events (_get_engines env g) |}.
Proof.
  destruct env as [na nb an ano], g as [[a |] [b |]];
    destruct na as [a' | e]; destruct nb as [b' | e']; reflexivity.
Qed.

Lemma sum_list_insert (f : Pc -> nat) (l : list Pc) (i : nat) (pc pc' : Pc) :
  l !! i = Some pc ->
  (sum_list (f <$> <[i := pc']> l) + f pc = sum_list (f <$> l) + f pc')%nat.
Proof.
  revert i. induction l as [| x l IH]; intros [| i] Hl; simplify_eq/=.
  - lia.
  - specialize (IH i Hl). lia.
Qed.

Lemma sum_list_at_most_length (f : Pc -> nat) (l : list Pc) :
  (forall pc, f pc <= 1)%nat -> (sum_list (f <$> l) <= length l)%nat.
Proof.
  intros Hf. induction l as [| x l IH]; cbn; [lia |].
  specialize (Hf x). lia.
Qed.

Lemma analyzer_constructions_app (h1 h2 : list Event) :
  analyzer_constructions (h1 ++ h2)
  = (analyzer_constructions h1 + analyzer_constructions h2)%nat.
Proof.
  unfold analyzer_constructions. by rewrite List.filter_app, length_app.
Qed.

Lemma anonymizer_constructions_app (h1 h2 : list Event) :
  anonymizer_constructions (h1 ++ h2)
  = (anonymizer_constructions h1 + anonymizer_constructions h2)%nat.
Proof.
  unfold anonymizer_constructions. by rewrite List.filter_app, length_app.
Qed.

Lemma step_constructions_bounded (i : nat) (env : Env) (s s' : System) :
  step i env s = Some s' ->
  constructions_bounded s ->
  constructions_bounded s' /\ length (threads s') = length (threads s).
Proof.
  unfold step, constructions_bounded.
  destruct (threads s !! i) as [pc |] eqn:Hpc; [| discriminate].
  intros Hstep [Ha Hb].
  pose proof (sum_list_insert past_new_analyzer (threads s) i pc) as Sa.
  pose proof (sum_list_insert past_new_anonymizer (threads s) i pc) as Sb.
  destruct env as [na nb an ano].
  destruct pc; destruct na as [a' | e1], nb as [b' | e2]; cbn in Hstep;
    repeat match type of Hstep with
           | context [if ?c then _ else _] => destruct c
           end;
    simplify_eq; cbn [history threads];
    rewrite ?analyzer_constructions_app, ?anonymizer_constructions_app,
      ?length_insert;
    match goal with
    | |- context [<[i := ?pc']> (threads s)] =>
        specialize (Sa pc' Hpc); specialize (Sb pc' Hpc)
    end;
    unfold analyzer_constructions, anonymizer_constructions in *;
    cbn in *; (split; [split |]; lia).
Qed.

Lemma run_constructions_bounded (schedule : list (nat * Env)) (s s' : System) :
  run schedule s = Some s' ->
  constructions_bounded s ->
  constructions_bounded s' /\ length (threads s') = length (threads s).
Proof.
  revert s. induction schedule as [| [i env] schedule IH]; intros s; cbn [run].
  - intros [= <-] Hs. by split.
  - destruct (step i env s) as [s1 |] eqn:Hstep; [| discriminate].
    intros Hrun Hs.
    destruct (step_constructions_bounded i env s s1 Hstep Hs) as [Hs1 Hlen1].
    destruct (IH s1 Hrun Hs1) as [Hs' Hlen']. split; [done | congruence].
Qed.

(** C9, as the code has it: [_get_engines] takes no lock.  Whatever the
    interleaving of [n] callers that enter before any engine exists and
    whatever the library does, each caller invokes each constructor at most
    once, so that each constructor is invoked at most [n] times in all. *)
Theorem concurrent_callers_construct_at_most_once_each
    (n : nat) (schedule : list (nat * Env)) (s : System) :
  run schedule (first_time_calls n) = Some s ->
  (analyzer_constructions (history s) <= n)%nat
  /\ (anonymizer_constructions (history s) <= n)%nat.
Proof.
  intros Hrun.
  assert (Hinit : constructions_bounded (first_time_calls n)).
  { split; cbn; lia. }
  destruct (run_constructions_bounded schedule _ s Hrun Hinit) as [[Ha Hb] Hlen].
  cbn [first_time_calls threads] in Hlen. rewrite length_replicate in Hlen.
  pose proof (sum_list_at_most_length past_new_analyzer (threads s)) as La.
  pose proof (sum_list_at_most_length past_new_anonymizer (threads s)) as Lb.
  assert (forall pc, (past_new_analyzer pc <= 1)%nat) as Pa
    by (intros []; cbn; lia).
  assert (forall pc, (past_new_anonymizer pc <= 1)%nat) as Pb
    by (intros []; cbn; lia).
  specialize (La Pa). specialize (Lb Pb). lia.
Qed.

End Properties.

(** * The rest of the module: statistics, the script's own test run *)

Section Script.
Context `{Presidio}.

(** ** Reading the statistics dictionary *)

(** The number of findings of one entity type. *)
Definition findings_of_type (ty : string) (results : list RecognizerResult) : Z :=
  Z.of_nat (length (List.filter (fun r => String.eqb (entity_type r) ty) results)).

(** The keys of a dictionary in insertion order, and the sum of its values. *)
Definition dict_keys (d : list (string * Z)) : list string := map fst d.

Definition dict_total (d : list (string * Z)) : Z :=
  fold_right Z.add 0%Z (map snd d).

(** Both globals hold an engine. *)
Definition engines_set (g : Globals) : Prop :=
  exists a b, _analyzer g = Some a /\ _anonymizer g = Some b.

(** A constructor was invoked during the run. *)
Definition is_construction (ev : Event) : bool :=
  is_analyzer_construction ev || is_anonymizer_construction ev.

Definition is_analyze_call (ev : Event) : bool :=
  match ev with Call_analyze _ _ _ _ _ => true | _ => false end.

Definition is_anonymize_call (ev : Event) : bool :=
  match ev with Call_anonymize _ _ _ _ _ => true | _ => false end.

(** ** The block under [if __name__ == "__main__"] *)

Definition newline : string := String "010" EmptyString.

(** [test_text], the triple-quoted literal of line 179, line by line. *)
Definition test_text : Text :=
  code_points (String.concat newline [
    "";
    "    This Non-Disclosure Agreement is entered into by John Smith ";
    "    (email: john.smith@example.com, phone: 555-123-4567, SSN: 123-45-6789)";
    "    residing at 123 Main Street, New York, NY 10001";
    "    and Jane Doe (jane.doe@company.org).";
    "    ";
    "    Payment shall be made to IBAN: DE89370400440532013000.";
    "    "
  ]).

(** [s * n] on a string. *)
Fixpoint str_times (s : string) (n : nat) : string :=
  match n with
  | O => ""
  | S n' => s ++ str_times s n'
  end.

(** What one [print] of the block writes: a string literal, a text, or the
    line of one detected entity with the four interpolated values (the
    score to be shown with two decimals). *)
Inductive Printed : Type :=
| Print_literal (s : string)
| Print_text (t : Text)
| Print_entity (entity_type start end_ score : PyVal).

(** What can end the block: an exception that an entry point let through,
    or the [KeyError] or [ValueError] of the f-string of line 199. *)
Inductive ScriptExn : Type :=
| Uncaught (e : PyExn)
| KeyError (key : string)
| ValueError (msg : string).

(** [e[key]] on a dictionary. *)
Definition subscript (e : gmap string PyVal) (key : string)
  : outcome ScriptExn PyVal :=
  match e !! key with
  | Some v => Ok v
  | None => Raise (KeyError key)
  end.

(** The f-string of line 199: the four subscripts in order, the last one
    formatted with [.2f], which a string does not accept. *)
Definition format_entity (e : gmap string PyVal) : outcome ScriptExn Printed :=
  match subscript e "entity_type" with
  | Raise x => Raise x
  | Ok ty =>
      match subscript e "start" with
      | Raise x => Raise x
      | Ok s =>
          match subscript e "end" with
          | Raise x => Raise x
          | Ok en =>
              match subscript e "score" with
              | Raise x => Raise x
              | Ok (PyStr _) =>
                  Raise (ValueError "Unknown format code 'f' for object of type 'str'")
              | Ok sc => Ok (Print_entity ty s en sc)
              end
          end
      end
  end.

(** The loop [for e in entities: print(...)]: the lines printed before the
    loop ends or an exception stops it. *)
Fixpoint print_entities (entities : list (gmap string PyVal))
  : list Printed * outcome ScriptExn unit :=
  match entities with
  | [] => ([], Ok tt)
  | e :: entities' =>
      match format_entity e with
      | Ok line =>
          let rest := print_entities entities' in
          (line :: fst rest, snd rest)
      | Raise x => ([], Raise x)
      end
  end.

Record ScriptRun := {
  printed : list Printed;
  script_result : outcome ScriptExn unit;
  script_final : Globals;
  script_events : list Event;
}.

(** The five lines printed before [secure_text] is called, and the three
    printed between its return and the call of [analyze_only]. *)
Definition banner : list Printed :=
  [Print_literal (str_times "=" 60);
   Print_literal "ORIGINAL TEXT:";
   Print_text test_text;
   Print_literal (str_times "=" 60);
   Print_literal (newline ++ "SANITIZED TEXT:")].

Definition report_heading (sanitized : Text) : list Printed :=
  [Print_text sanitized;
   Print_literal (str_times "=" 60);
   Print_literal (newline ++ "DETECTED ENTITIES:")].

(** The block, the library behaving as [env_secure] during [secure_text]
    and as [env_analyze] during [analyze_only]. *)
Definition main (env_secure env_analyze : Env) (g : Globals) : ScriptRun :=
  let r1 := secure_text env_secure test_text None g in
  match result r1 with
  | Raise e =>
      {| printed := banner; script_result := Raise (Uncaught e);
         script_final := final r1; script_events := events r1 |}
  | Ok sanitized =>
      let r2 := analyze_only env_analyze test_text None (final r1) in
      match result r2 with
      | Raise e =>
          {| printed := banner ++ report_heading sanitized;
             script_result := Raise (Uncaught e);
             script_final := final r2;
             script_events := events r1 ++ events r2 |}
      | Ok entities =>
          let loop := print_entities entities in
          {| printed := banner ++ report_heading sanitized ++ fst loop;
             script_result := snd loop;
             script_final := final r2;
             script_events := events r1 ++ events r2 |}
      end
  end.

(** The line the loop prints for a finding. *)
Definition entity_line (r : RecognizerResult) : Printed :=
  Print_entity (PyStr (entity_type r)) (PyInt (start r)) (PyInt (end_ r))
               (PyFloat (score r)).

(** ** Where several threads stand *)

(** What the place of a thread says about the shared globals: past a
    constructor call, the global it assigns holds an engine; a caller that
    has returned holds two engines; the exception in a handler is the
    library's, the one a caller fails with is the [RuntimeError]. *)
Definition place_sound (g : Globals) (pc : Pc) : Prop :=
  match pc with
  | At_check | At_new_analyzer => True
  | At_new_anonymizer => is_None (_analyzer g) = false
  | At_log_success | At_return =>
      is_None (_analyzer g) = false /\ is_None (_anonymizer g) = false
  | At_handler e => exists cause, e = LibraryError cause
  | Finished (Ok (oa, ob)) => is_None oa = false /\ is_None ob = false
  | Finished (Raise e) =>
      exists cause, e = RuntimeError init_failed_msg (LibraryError cause)
  end.

Definition places_sound (s : System) : Prop :=
  Forall (place_sound (shared s)) (threads s).

End Script.

Section ScriptProperties.
Context `{Presidio}.

(** ** The statistics of [secure_text] *)

Lemma dict_get_set (d : list (string * Z)) (k k' : string) (v default : Z) :
  dict_get (dict_set d k v) k' default
  = if String.eqb k' k then v else dict_get d k' default.
Proof.
  induction d as [| [k0 v0] d IH]; cbn [dict_set dict_get].
  - reflexivity.
  - destruct (String.eqb_spec k k0) as [-> | Hk]; cbn [dict_get].
    + destruct (String.eqb_spec k' k0); reflexivity.
    + destruct (String.eqb_spec k' k0) as [-> | Hk'].
      * destruct (String.eqb_spec k0 k); [congruence | reflexivity].
      * exact IH.
Qed.

Lemma dict_keys_set (d : list (string * Z)) (k : string) (v : Z) :
  dict_keys (dict_set d k v)
  = if existsb (String.eqb k) (dict_keys d) then dict_keys d
    else dict_keys d ++ [k].
Proof.
  unfold dict_keys.
  induction d as [| [k0 v0] d IH]; cbn [dict_set map fst existsb app].
  - reflexivity.
  - destruct (String.eqb_spec k k0) as [-> | Hk]; cbn [map fst orb].
    + reflexivity.
    + rewrite IH. by destruct (existsb (String.eqb k) (map fst d)).
Qed.

Lemma dict_total_set (d : list (string * Z)) (k : string) (v : Z) :
  dict_total (dict_set d k v) = (dict_total d - dict_get d k 0 + v)%Z.
Proof.
  unfold dict_total.
  induction d as [| [k0 v0] d IH]; cbn [dict_set dict_get map snd fold_right].
  - lia.
  - destruct (String.eqb_spec k k0) as [-> | Hk]; cbn [map snd fold_right].
    + lia.
    + rewrite IH. lia.
Qed.

Lemma existsb_eqb_In (k : string) (l : list string) :
  existsb (String.eqb k) l = true <-> In k l.
Proof.
  rewrite existsb_exists. split.
  - intros (x & Hin & Heq). apply String.eqb_eq in Heq. by subst.
  - intros Hin. exists k. split; [done | apply String.eqb_refl].
Qed.

Lemma dict_keys_set_NoDup (d : list (string * Z)) (k : string) (v : Z) :
  List.NoDup (dict_keys d) -> List.NoDup (dict_keys (dict_set d k v)).
Proof.
  intros Hnd. rewrite dict_keys_set.
  destruct (existsb (String.eqb k) (dict_keys d)) eqn:Hex; [exact Hnd |].
  apply List.NoDup_app; [exact Hnd | repeat constructor; intros [] |].
  intros x Hx [<- | []].
  apply existsb_eqb_In in Hx. congruence.
Qed.

(** The loop of lines 127-128, started from any dictionary. *)
Definition tally (d : list (string * Z)) (results : list RecognizerResult)
  : list (string * Z) :=
  fold_left
    (fun entity_counts result =>
       dict_set entity_counts (entity_type result)
                (dict_get entity_counts (entity_type result) 0 + 1)%Z)
    results d.

Lemma tally_get (results : list RecognizerResult) (d : list (string * Z)) ty :
  dict_get (tally d results) ty 0
  = (dict_get d ty 0 + findings_of_type ty results)%Z.
Proof.
  unfold tally, findings_of_type.
  revert d. induction results as [| r results IH]; intros d;
    cbn [fold_left List.filter length].
  - lia.
  - rewrite IH, dict_get_set.
    rewrite (String.eqb_sym ty (entity_type r)).
    destruct (String.eqb_spec (entity_type r) ty) as [-> | Hne];
      cbn [length]; lia.
Qed.

Lemma tally_total (results : list RecognizerResult) (d : list (string * Z)) :
  dict_total (tally d results) = (dict_total d + Z.of_nat (length results))%Z.
Proof.
  unfold tally.
  revert d. induction results as [| r results IH]; intros d;
    cbn [fold_left length].
  - lia.
  - rewrite IH, dict_total_set. lia.
Qed.

Lemma tally_NoDup (results : list RecognizerResult) (d : list (string * Z)) :
  List.NoDup (dict_keys d) -> List.NoDup (dict_keys (tally d results)).
Proof.
  unfold tally.
  revert d. induction results as [| r results IH]; intros d Hd;
    cbn [fold_left]; [exact Hd |].
  apply IH, dict_keys_set_NoDup, Hd.
Qed.

Lemma tally_keys (results : list RecognizerResult) (d : list (string * Z)) ty :
  In ty (dict_keys (tally d results))
  <-> In ty (dict_keys d) \/ exists r, In r results /\ entity_type r = ty.
Proof.
  unfold tally.
  revert d. induction results as [| r results IH]; intros d; cbn [fold_left].
  - split; [tauto | intros [Hd | (r & [] & _)]; exact Hd].
  - rewrite IH, dict_keys_set.
    destruct (existsb (String.eqb (entity_type r)) (dict_keys d)) eqn:Hex.
    + apply existsb_eqb_In in Hex. split.
      * intros [Hd | (r' & Hin & Heq)]; [tauto |].
        right. exists r'. split; [by right | done].
      * intros [Hd | (r' & [<- | Hin] & Heq)]; [tauto | | ].
        -- left. by rewrite <- Heq.
        -- right. by exists r'.
    + rewrite in_app_iff. cbn [In]. split.
      * intros [[Hd | [<- | []]] | (r' & Hin & Heq)].
        -- tauto.
        -- right. exists r. split; [by left | done].
        -- right. exists r'. split; [by right | done].
      * intros [Hd | (r' & [<- | Hin] & Heq)].
        -- tauto.
        -- left. right. left. done.
        -- right. by exists r'.
Qed.

(** X1: the dictionary that [secure_text] logs after a redaction holds, for
    every entity type, the number of findings of that type; its keys are
    the entity types that occur among the findings, each once; and its
    values add up to the number of findings logged beside it. *)
Theorem entity_counts_tally_findings (results : list RecognizerResult) :
  (forall ty,
     dict_get (count_entities results) ty 0 = findings_of_type ty results)
  /\ (forall ty,
        In ty (dict_keys (count_entities results))
        <-> exists r, In r results /\ entity_type r = ty)
  /\ List.NoDup (dict_keys (count_entities results))
  /\ dict_total (count_entities results) = Z.of_nat (length results).
Proof.
  change (count_entities results) with (tally [] results).
  split; [| split; [| split]].
  - intros ty. rewrite tally_get. cbn [dict_get]. lia.
  - intros ty. rewrite tally_keys. cbn [dict_keys map In]. tauto.
  - apply tally_NoDup. constructor.
  - rewrite tally_total. cbn. lia.
Qed.

(** ** The guard on blank input *)

Lemma lstrip_nil_whitespace (t : Text) :
  lstrip t = [] -> Forall (fun c => isspace c = true) t.
Proof.
  induction t as [| c t IH]; cbn [lstrip]; [constructor |].
  destruct (isspace c) eqn:Hc; [| discriminate].
  intros Ht. constructor; [exact Hc | exact (IH Ht)].
Qed.

Lemma lstrip_keeps_last (t : Text) (c : N) :
  isspace c = false -> lstrip (t ++ [c]) <> [].
Proof.
  intros Hc. induction t as [| c0 t IH]; cbn [app lstrip].
  - by rewrite Hc.
  - by destruct (isspace c0).
Qed.

Lemma lstrip_head (t : Text) :
  lstrip t = [] \/ exists c t', lstrip t = c :: t' /\ isspace c = false.
Proof.
  induction t as [| c t IH]; cbn [lstrip]; [by left |].
  destruct (isspace c) eqn:Hc; [exact IH | right; eauto].
Qed.

(** X2: the guard [not text or not text.strip()] holds exactly of the texts
    made of whitespace only (the empty text among them): a text with one
    character that is not whitespace always goes on to the engines. *)
Theorem blank_exactly_when_all_whitespace (text : Text) :
  is_blank text = true <-> Forall (fun c => isspace c = true) text.
Proof.
  split; [| apply whitespace_is_blank].
  unfold is_blank, strip, rstrip. intros Hb.
  destruct (lstrip_head text) as [Hl | (c & t' & Hl & Hc)].
  - by apply lstrip_nil_whitespace.
  - exfalso. rewrite Hl in Hb. cbn [rev] in Hb.
    pose proof (lstrip_keeps_last (rev t') c Hc) as Hlast.
    destruct (lstrip (rev t' ++ [c])) as [| c1 t1] eqn:Hr; [done |].
    assert (Hne : rev (c1 :: t1) <> []).
    { cbn [rev]. by destruct (rev t1). }
    destruct (rev (c1 :: t1)); [done |].
    destruct text; [discriminate Hl |]. discriminate Hb.
Qed.

(** ** What the entry points do with the engines *)

Lemma get_engines_ok_final (env : Env) (g : Globals) oa ob :
  result (_get_engines env g) = Ok (oa, ob) ->
  exists a b,
    oa = Some a /\ ob = Some b
    /\ _analyzer (final (_get_engines env g)) = Some a
    /\ _anonymizer (final (_get_engines env g)) = Some b.
Proof.
  destruct (_get_engines_spec env g) as [a b Ha Hb | a b _ _ _ | e _ _ | a e _ _ _];
    cbn [result final _analyzer _anonymizer]; intros Hr; simplify_eq;
    by exists a, b.
Qed.

(** Membership in the events of a call that got past [_get_engines]. *)
Ltac after_engines Hin :=
  apply in_app_or in Hin;
  destruct Hin as [Hin | Hin];
  [ apply get_engines_no_method_call in Hin
  | cbn [In] in Hin; repeat destruct Hin as [Hin | Hin] ].

Lemma get_engines_no_analyze_call (env : Env) (g : Globals) :
  List.filter is_analyze_call (events (_get_engines env g)) = []
  /\ List.filter is_anonymize_call (events (_get_engines env g)) = [].
Proof. by destruct (_get_engines_spec env g). Qed.

(** X3: how the analyzer is called.  Either entry point calls it at most
    once; the call is on the engine the global holds, on the whole input
    text as given (not the stripped one), for language en, and for the
    caller's entity list when that is not empty, unchecked, for
    [LEGAL_PII_ENTITIES] otherwise. *)
Theorem analyzer_called_once_on_whole_text
    (env : Env) (text : Text) (entities : option (list string)) (g : Globals) :
  (length (List.filter is_analyze_call
             (events (secure_text env text entities g))) <= 1)%nat
  /\ (length (List.filter is_analyze_call
                (events (analyze_only env text entities g))) <= 1)%nat
  /\ (forall a t ents language r,
        In (Call_analyze a t ents language r)
           (events (secure_text env text entities g))
        \/ In (Call_analyze a t ents language r)
             (events (analyze_only env text entities g)) ->
        _analyzer (final (_get_engines env g)) = Some a
        /\ t = text /\ language = "en"
        /\ ents = or_default entities LEGAL_PII_ENTITIES
        /\ r = analyze env a text ents "en")
  /\ (forall e es, or_default (Some (e :: es)) LEGAL_PII_ENTITIES = e :: es).
Proof.
  destruct (get_engines_no_analyze_call env g) as [Hnone _].
  split; [| split; [| split; [| done]]].
  - destruct (secure_text_cases env text entities g); cbn [events];
      rewrite ?List.filter_app, ?length_app, ?Hnone; cbn; lia.
  - destruct (analyze_only_cases env text entities g); cbn [events];
      rewrite ?List.filter_app, ?length_app, ?Hnone; cbn; lia.
  - intros a t ents language r [Hin | Hin].
    + destruct (secure_text_cases env text entities g)
        as [Hb | e Hb Hge | a' b' x Hb Hge Han | a' b' Hb Hge Han
            | a' b' results redacted Hb Hge Han Hne Hano
            | a' b' results x Hb Hge Han Hne Hano];
        cbn [events] in Hin.
      * destruct Hin.
      * by apply get_engines_no_method_call in Hin.
      * after_engines Hin; try done. simplify_eq.
        destruct (get_engines_ok_final env g _ _ Hge) as (? & ? & ? & ? & ? & ?).
        by simplify_eq.
      * after_engines Hin; try done. simplify_eq.
        destruct (get_engines_ok_final env g _ _ Hge) as (? & ? & ? & ? & ? & ?).
        by simplify_eq.
      * after_engines Hin; try done. simplify_eq.
        destruct (get_engines_ok_final env g _ _ Hge) as (? & ? & ? & ? & ? & ?).
        by simplify_eq.
      * after_engines Hin; try done. simplify_eq.
        destruct (get_engines_ok_final env g _ _ Hge) as (? & ? & ? & ? & ? & ?).
        by simplify_eq.
    + destruct (analyze_only_cases env text entities g)
        as [Hb | e Hb Hge | a' b' x Hb Hge Han | a' b' results Hb Hge Han];
        cbn [events] in Hin.
      * destruct Hin.
      * by apply get_engines_no_method_call in Hin.
      * after_engines Hin; try done. simplify_eq.
        destruct (get_engines_ok_final env g _ _ Hge) as (? & ? & ? & ? & ? & ?).
        by simplify_eq.
      * after_engines Hin; try done. simplify_eq.
        destruct (get_engines_ok_final env g _ _ Hge) as (? & ? & ? & ? & ? & ?).
        by simplify_eq.
Qed.

(** X4: how the anonymizer is called.  [analyze_only] never calls it.
    [secure_text] calls it at most once, on the engine the global holds,
    and only after the analyzer returned findings: with the whole input
    text, with exactly those findings (there is at least one) and with
    [REDACTION_OPERATORS]. *)
Theorem anonymizer_called_only_on_findings
    (env : Env) (text : Text) (entities : option (list string)) (g : Globals) :
  List.filter is_anonymize_call (events (analyze_only env text entities g)) = []
  /\ (length (List.filter is_anonymize_call
                (events (secure_text env text entities g))) <= 1)%nat
  /\ (forall b t results operators r,
        In (Call_anonymize b t results operators r)
           (events (secure_text env text entities g)) ->
        _anonymizer (final (_get_engines env g)) = Some b
        /\ t = text
        /\ operators = REDACTION_OPERATORS
        /\ results <> []
        /\ (exists a,
               _analyzer (final (_get_engines env g)) = Some a
               /\ analyze env a text (or_default entities LEGAL_PII_ENTITIES) "en"
                  = Ok results)
        /\ r = anonymize env b text results REDACTION_OPERATORS).
Proof.
  destruct (get_engines_no_analyze_call env g) as [_ Hnone].
  split; [| split].
  - destruct (analyze_only_cases env text entities g); cbn [events];
      rewrite ?List.filter_app, ?Hnone; done.
  - destruct (secure_text_cases env text entities g); cbn [events];
      rewrite ?List.filter_app, ?length_app, ?Hnone; cbn; lia.
  - intros b t results operators r Hin.
    destruct (secure_text_cases env text entities g)
      as [Hb | e Hb Hge | a' b' x Hb Hge Han | a' b' Hb Hge Han
          | a' b' results' redacted Hb Hge Han Hne Hano
          | a' b' results' x Hb Hge Han Hne Hano];
      cbn [events] in Hin.
    + destruct Hin.
    + by apply get_engines_no_method_call in Hin.
    + after_engines Hin; done.
    + after_engines Hin; done.
    + after_engines Hin; try done. simplify_eq.
      destruct (get_engines_ok_final env g _ _ Hge)
        as (a1 & b1 & Ea & Eb & Ha1 & Hb1).
      injection Ea as <-. injection Eb as <-.
      repeat split; try done. by exists a'.
    + after_engines Hin; try done. simplify_eq.
      destruct (get_engines_ok_final env g _ _ Hge)
        as (a1 & b1 & Ea & Eb & Ha1 & Hb1).
      injection Ea as <-. injection Eb as <-.
      repeat split; try done. by exists a'.
Qed.

(** X5: where the text that [secure_text] returns comes from.  It is the
    empty text on blank input; the text of the anonymizer's result when the
    anonymizer returned one; and the input text itself, unchanged, in every
    other case.  The module never edits text of its own. *)
Theorem secure_text_output_origin
    (env : Env) (text : Text) (entities : option (list string)) (g : Globals)
    (t : Text) :
  result (secure_text env text entities g) = Ok t ->
  (is_blank text = true /\ t = [])
  \/ (is_blank text = false /\ t = text
      /\ forall b t' results operators redacted,
           ~ In (Call_anonymize b t' results operators (Ok redacted))
                (events (secure_text env text entities g)))
  \/ (is_blank text = false
      /\ exists b results redacted,
           In (Call_anonymize b text results REDACTION_OPERATORS (Ok redacted))
              (events (secure_text env text entities g))
           /\ t = er_text redacted).
Proof.
  destruct (secure_text_cases env text entities g)
    as [Hb | e Hb Hge | a b x Hb Hge Han | a b Hb Hge Han
        | a b results redacted Hb Hge Han Hne Hano
        | a b results x Hb Hge Han Hne Hano];
    cbn [result events]; intros Hr; simplify_eq.
  - by left.
  - right. left. repeat split; try done.
    intros b0 t' rs ops red Hin. after_engines Hin; done.
  - right. left. repeat split; try done.
    intros b0 t' rs ops red Hin. after_engines Hin; done.
  - right. right. split; [done |]. exists b, results, redacted.
    split; [| done]. apply in_or_app. right. cbn. tauto.
  - right. left. repeat split; try done.
    intros b0 t' rs ops red Hin. after_engines Hin; done.
Qed.

Lemma get_engines_never_warns (env : Env) (g : Globals) msg :
  ~ In (Log WARNING msg) (events (_get_engines env g)).
Proof.
  destruct (_get_engines_spec env g); cbn [events In]; intros Hin;
    repeat destruct Hin as [Hin | Hin]; done.
Qed.

(** X6: the warning that unredacted text is being returned is logged by
    [secure_text] exactly when the analyzer or the anonymizer raised during
    the call.  A caller that watches the log for this record misses no
    swallowed error and gets no false alarm. *)
Theorem unredacted_warning_exactly_on_error
    (env : Env) (text : Text) (entities : option (list string)) (g : Globals) :
  In (Log WARNING Returning_unredacted_text)
     (events (secure_text env text entities g))
  <-> exists e,
        detection_or_redaction_raised (secure_text env text entities g) e.
Proof.
  split.
  - intros Hin.
    destruct (secure_text_cases env text entities g)
      as [Hb | e Hb Hge | a b x Hb Hge Han | a b Hb Hge Han
          | a b results redacted Hb Hge Han Hne Hano
          | a b results x Hb Hge Han Hne Hano];
      cbn [events] in *.
    + destruct Hin.
    + by apply get_engines_never_warns in Hin.
    + exists x. left.
      exists a, text, (or_default entities LEGAL_PII_ENTITIES), "en".
      apply in_or_app. right. cbn. tauto.
    + apply in_app_or in Hin. destruct Hin as [Hin | Hin];
        [by apply get_engines_never_warns in Hin |].
      cbn [In] in Hin. repeat destruct Hin as [Hin | Hin]; done.
    + apply in_app_or in Hin. destruct Hin as [Hin | Hin];
        [by apply get_engines_never_warns in Hin |].
      cbn [In] in Hin. repeat destruct Hin as [Hin | Hin]; done.
    + exists x. right.
      exists b, text, results, REDACTION_OPERATORS.
      apply in_or_app. right. cbn. tauto.
  - intros [e Hraised].
    destruct (secure_text_cases env text entities g)
      as [Hb | e' Hb Hge | a b x Hb Hge Han | a b Hb Hge Han
          | a b results redacted Hb Hge Han Hne Hano
          | a b results x Hb Hge Han Hne Hano];
      cbn [events] in *;
      destruct Hraised as [(a0 & t & ents & lang & Hin) | (b0 & t & rs & ops & Hin)].
    all: try (destruct Hin; fail).
    all: try (by apply get_engines_no_method_call in Hin).
    all: after_engines Hin; try done.
    all: apply in_or_app; right; cbn; tauto.
Qed.

(** X7: of the instances of [Exception], the ones the handlers of the
    module see and the only ones modelled, one alone leaves
    [_get_engines], [secure_text] or [analyze_only]: the [RuntimeError] of
    [_get_engines], and it leaves only when an engine was missing and a
    constructor raised; from the entry points, only on text that is not
    blank.  No instance of [Exception] that the analyzer or the anonymizer
    raises reaches the caller. *)
Theorem only_initialization_error_escapes
    (env : Env) (text : Text) (entities : option (list string)) (g : Globals)
    (e : PyExn) :
  result (_get_engines env g) = Raise e
  \/ result (secure_text env text entities g) = Raise e
  \/ result (analyze_only env text entities g) = Raise e ->
  result (_get_engines env g) = Raise e
  /\ (exists cause,
         e = RuntimeError init_failed_msg (LibraryError cause)
         /\ construction_failure env = Some cause)
  /\ is_None (_analyzer g) || is_None (_anonymizer g) = true
  /\ (result (secure_text env text entities g) = Raise e
      \/ result (analyze_only env text entities g) = Raise e ->
      is_blank text = false).
Proof.
  intros Hraise.
  assert (Hge : result (_get_engines env g) = Raise e
                /\ (result (secure_text env text entities g) = Raise e
                    \/ result (analyze_only env text entities g) = Raise e ->
                    is_blank text = false)).
  { destruct Hraise as [Hr | [Hr | Hr]].
    - split; [done |].
      intros [Hs | Ha].
      + destruct (secure_text_cases env text entities g);
          cbn [result] in Hs; by simplify_eq.
      + destruct (analyze_only_cases env text entities g);
          cbn [result] in Ha; by simplify_eq.
    - destruct (secure_text_cases env text entities g);
        cbn [result] in Hr; simplify_eq. by split.
    - destruct (analyze_only_cases env text entities g);
        cbn [result] in Hr; simplify_eq. by split. }
  destruct Hge as [Hge Hblank]. split; [exact Hge |].
  split; [| split; [| exact Hblank]].
  - unfold construction_failure.
    destruct (_get_engines_spec env g) as [a b Ha Hb | a b _ Ha Hb | x _ Ha | a x _ Ha Hb];
      cbn [result] in Hge; simplify_eq.
    + exists x. by rewrite Ha.
    + exists x. by rewrite Ha, Hb.
  - destruct (_get_engines_spec env g) as [a b Ha Hb | a b _ Ha Hb | x Hn Ha | a x Hn Ha Hb];
      cbn [result] in Hge; by simplify_eq.
Qed.

Lemma engines_set_cached (env : Env) (g : Globals) :
  engines_set g ->
  exists a b,
    _get_engines env g
    = {| result := Ok (Some a, Some b); final := g; events := [] |}.
Proof.
  intros (a & b & Ha & Hb). exists a, b. by apply get_engines_cached.
Qed.

Lemma secure_text_with_engines
    (env : Env) (text : Text) (entities : option (list string)) (g : Globals) :
  engines_set g ->
  (exists t, result (secure_text env text entities g) = Ok t)
  /\ final (secure_text env text entities g) = g
  /\ List.filter is_construction (events (secure_text env text entities g)) = [].
Proof.
  intros Hset.
  destruct (engines_set_cached env g Hset) as (a & b & Hge).
  pose proof (secure_text_cases env text entities g) as Hs.
  rewrite Hge in Hs.
  destruct Hs as [? | ? ? Hr | | | |]; cbn [result final events app] in *;
    try discriminate Hr; repeat split; eauto.
Qed.

Lemma analyze_only_with_engines
    (env : Env) (text : Text) (entities : option (list string)) (g : Globals) :
  engines_set g ->
  (exists recs, result (analyze_only env text entities g) = Ok recs)
  /\ final (analyze_only env text entities g) = g
  /\ List.filter is_construction (events (analyze_only env text entities g)) = [].
Proof.
  intros Hset.
  destruct (engines_set_cached env g Hset) as (a & b & Hge).
  pose proof (analyze_only_cases env text entities g) as Ha.
  rewrite Hge in Ha.
  destruct Ha as [? | ? ? Hr | |]; cbn [result final events app] in *;
    try discriminate Hr; repeat split; eauto.
Qed.

(** X8: once both globals hold an engine, no instance of [Exception]
    that the library raises makes a call of [secure_text] or
    [analyze_only] fail, whatever the text: the call returns; no call
    invokes a constructor; and every call leaves the globals as they are.
    (What is raised outside [Exception] is not modelled.) *)
Theorem entry_points_safe_once_engines_exist
    (env : Env) (text : Text) (entities : option (list string)) (g : Globals) :
  engines_set g ->
  (exists t, result (secure_text env text entities g) = Ok t)
  /\ (exists recs, result (analyze_only env text entities g) = Ok recs)
  /\ final (secure_text env text entities g) = g
  /\ final (analyze_only env text entities g) = g
  /\ List.filter is_construction (events (secure_text env text entities g)) = []
  /\ List.filter is_construction (events (analyze_only env text entities g)) = [].
Proof.
  intros Hset.
  destruct (secure_text_with_engines env text entities g Hset) as (Hs1 & Hs2 & Hs3).
  destruct (analyze_only_with_engines env text entities g Hset) as (Ha1 & Ha2 & Ha3).
  by repeat split.
Qed.

Lemma get_engines_ok_engines_set (env : Env) (g : Globals) oa ob :
  result (_get_engines env g) = Ok (oa, ob) ->
  oa = _analyzer (final (_get_engines env g))
  /\ ob = _anonymizer (final (_get_engines env g))
  /\ engines_set (final (_get_engines env g)).
Proof.
  intros Hr.
  destruct (get_engines_ok_final env g oa ob Hr) as (a & b & -> & -> & Ha & Hb).
  repeat split; try done. by exists a, b.
Qed.

Lemma secure_text_ok_engines_set
    (env : Env) (text : Text) (entities : option (list string)) (g : Globals) t :
  is_blank text = false ->
  result (secure_text env text entities g) = Ok t ->
  engines_set (final (secure_text env text entities g)).
Proof.
  intros Hblank Hr.
  destruct (secure_text_cases env text entities g)
    as [Hb | e Hb Hge | a b x Hb Hge Han | a b Hb Hge Han
        | a b results redacted Hb Hge Han Hne Hano
        | a b results x Hb Hge Han Hne Hano];
    cbn [result final] in *; try congruence;
    by apply (get_engines_ok_engines_set _ _ _ _ Hge).
Qed.

(** X9: [_get_engines] never returns [None] in place of an engine: the
    pair it returns is the content of the two globals, both set.  So every
    call of [secure_text] or [analyze_only] that returns on text that is
    not blank leaves both globals set. *)
Theorem returning_call_leaves_engines_set
    (env : Env) (text : Text) (entities : option (list string)) (g : Globals) :
  (forall oa ob,
     result (_get_engines env g) = Ok (oa, ob) ->
     oa = _analyzer (final (_get_engines env g))
     /\ ob = _anonymizer (final (_get_engines env g))
     /\ engines_set (final (_get_engines env g)))
  /\ (is_blank text = false ->
      (forall t,
         result (secure_text env text entities g) = Ok t ->
         engines_set (final (secure_text env text entities g)))
      /\ (forall recs,
            result (analyze_only env text entities g) = Ok recs ->
            engines_set (final (analyze_only env text entities g)))).
Proof.
  split; [apply get_engines_ok_engines_set |].
  intros Hblank. split.
  - intros t. by apply secure_text_ok_engines_set.
  - intros recs Hr.
    destruct (analyze_only_cases env text entities g)
      as [Hb | e Hb Hge | a b x Hb Hge Han | a b results Hb Hge Han];
      cbn [result final] in *; try congruence;
      by apply (get_engines_ok_engines_set _ _ _ _ Hge).
Qed.

(** ** What the log says *)

Lemma get_engines_logs (env : Env) (g : Globals) level msg :
  In (Log level msg) (events (_get_engines env g)) ->
  msg = Engines_initialized \/ exists e, msg = Failed_to_initialize e.
Proof.
  destruct (_get_engines_spec env g); cbn [events In]; intros Hin;
    repeat destruct Hin as [Hin | Hin]; try done; simplify_eq;
    first [by left | right; by eexists].
Qed.

(** X13: the statistics record of [secure_text] is logged exactly when the
    anonymizer returned.  It is logged at INFO, and the number and the
    dictionary in it are the length and the tally of the findings the
    analyzer returned, the ones handed to the anonymizer, whatever the
    anonymizer then replaced. *)
Theorem redaction_logged_with_analyzer_tally
    (env : Env) (text : Text) (entities : option (list string)) (g : Globals) :
  (forall level n counts,
     In (Log level (Redacted n counts))
        (events (secure_text env text entities g)) ->
     level = INFO
     /\ exists b results redacted,
          In (Call_anonymize b text results REDACTION_OPERATORS (Ok redacted))
             (events (secure_text env text entities g))
          /\ detection_yields (secure_text env text entities g) text results
          /\ n = length results
          /\ counts = count_entities results
          /\ result (secure_text env text entities g) = Ok (er_text redacted))
  /\ (forall b t results operators redacted,
        In (Call_anonymize b t results operators (Ok redacted))
           (events (secure_text env text entities g)) ->
        In (Log INFO (Redacted (length results) (count_entities results)))
           (events (secure_text env text entities g))).
Proof.
  split.
  - intros level n counts Hin.
    destruct (secure_text_cases env text entities g)
      as [Hb | e Hb Hge | a b x Hb Hge Han | a b Hb Hge Han
          | a b results redacted Hb Hge Han Hne Hano
          | a b results x Hb Hge Han Hne Hano];
      cbn [events result] in *.
    + destruct Hin.
    + apply get_engines_logs in Hin. by destruct Hin as [? | [? ?]].
    + apply in_app_or in Hin. destruct Hin as [Hin | Hin].
      * apply get_engines_logs in Hin. by destruct Hin as [? | [? ?]].
      * cbn [In] in Hin. repeat destruct Hin as [Hin | Hin]; done.
    + apply in_app_or in Hin. destruct Hin as [Hin | Hin].
      * apply get_engines_logs in Hin. by destruct Hin as [? | [? ?]].
      * cbn [In] in Hin. repeat destruct Hin as [Hin | Hin]; done.
    + apply in_app_or in Hin. destruct Hin as [Hin | Hin].
      * apply get_engines_logs in Hin. by destruct Hin as [? | [? ?]].
      * cbn [In] in Hin. repeat destruct Hin as [Hin | Hin]; try done.
        simplify_eq. split; [done |]. exists b, results, redacted.
        repeat split; try done.
        -- apply in_or_app. right. cbn. tauto.
        -- exists a, (or_default entities LEGAL_PII_ENTITIES), "en".
           apply in_or_app. right. cbn. tauto.
    + apply in_app_or in Hin. destruct Hin as [Hin | Hin].
      * apply get_engines_logs in Hin. by destruct Hin as [? | [? ?]].
      * cbn [In] in Hin. repeat destruct Hin as [Hin | Hin]; done.
  - intros b0 t rs ops red Hin.
    destruct (secure_text_cases env text entities g)
      as [Hb | e Hb Hge | a b x Hb Hge Han | a b Hb Hge Han
          | a b results redacted Hb Hge Han Hne Hano
          | a b results x Hb Hge Han Hne Hano];
      cbn [events] in *.
    + destruct Hin.
    + by apply get_engines_no_method_call in Hin.
    + after_engines Hin; done.
    + after_engines Hin; done.
    + after_engines Hin; try done. simplify_eq.
      apply in_or_app. right. cbn. tauto.
    + after_engines Hin; done.
Qed.

(** X14: an empty list from [analyze_only] has three possible causes, and
    only the log tells them apart: the text was blank (nothing logged, no
    engine touched), the analyzer found nothing (nothing logged after the
    engines), or the analyzer raised, in which case, and only then, the
    error of the analysis is logged at ERROR. *)
Theorem empty_report_has_three_causes
    (env : Env) (text : Text) (entities : option (list string)) (g : Globals) :
  (result (analyze_only env text entities g) = Ok [] ->
   (is_blank text = true /\ events (analyze_only env text entities g) = [])
   \/ detection_yields (analyze_only env text entities g) text []
   \/ exists x,
        detection_or_redaction_raised (analyze_only env text entities g) x
        /\ In (Log ERROR (Error_during_analysis (LibraryError x)))
              (events (analyze_only env text entities g)))
  /\ (forall level e,
        In (Log level (Error_during_analysis e))
           (events (analyze_only env text entities g))
        <-> level = ERROR
            /\ exists x,
                 e = LibraryError x
                 /\ detection_or_redaction_raised
                      (analyze_only env text entities g) x).
Proof.
  split.
  - destruct (analyze_only_cases env text entities g)
      as [Hb | e Hb Hge | a b x Hb Hge Han | a b results Hb Hge Han];
      cbn [result events]; intros Hr; simplify_eq.
    + by left.
    + right. right. exists x. split.
      * left. exists a, text, (or_default entities LEGAL_PII_ENTITIES), "en".
        apply in_or_app. right. cbn. tauto.
      * apply in_or_app. right. cbn. tauto.
    + right. left. destruct results; [| discriminate].
      exists a, (or_default entities LEGAL_PII_ENTITIES), "en".
      apply in_or_app. right. cbn. tauto.
  - intros level e. split.
    + intros Hin.
      destruct (analyze_only_cases env text entities g)
        as [Hb | e' Hb Hge | a b x Hb Hge Han | a b results Hb Hge Han];
        cbn [events] in *.
      * destruct Hin.
      * apply get_engines_logs in Hin. by destruct Hin as [? | [? ?]].
      * apply in_app_or in Hin. destruct Hin as [Hin | Hin].
        -- apply get_engines_logs in Hin. by destruct Hin as [? | [? ?]].
        -- cbn [In] in Hin. repeat destruct Hin as [Hin | Hin]; try done.
           simplify_eq. split; [done |]. exists x. split; [done |].
           left. exists a, text, (or_default entities LEGAL_PII_ENTITIES), "en".
           apply in_or_app. right. cbn. tauto.
      * apply in_app_or in Hin. destruct Hin as [Hin | Hin].
        -- apply get_engines_logs in Hin. by destruct Hin as [? | [? ?]].
        -- cbn [In] in Hin. repeat destruct Hin as [Hin | Hin]; done.
    + intros (-> & x & -> & Hraised).
      destruct (analyze_only_cases env text entities g)
        as [Hb | e' Hb Hge | a b x' Hb Hge Han | a b results Hb Hge Han];
        cbn [events] in *;
        destruct Hraised as [(a0 & t & ents & lang & Hin) | (b0 & t & rs & ops & Hin)].
      all: try (destruct Hin; fail).
      all: try (by apply get_engines_no_method_call in Hin).
      all: after_engines Hin; try done.
      simplify_eq. apply in_or_app. right. cbn. tauto.
Qed.

(** ** Callers that interleave *)

Lemma place_sound_mono (g g' : Globals) (pc : Pc) :
  (is_None (_analyzer g) = false -> is_None (_analyzer g') = false) ->
  (is_None (_anonymizer g) = false -> is_None (_anonymizer g') = false) ->
  place_sound g pc -> place_sound g' pc.
Proof.
  intros Ha Hb. destruct pc as [| | | | e | | [[oa ob] | e]];
    cbn [place_sound]; tauto.
Qed.

Lemma step_places_sound (i : nat) (env : Env) (s s' : System) :
  step i env s = Some s' -> places_sound s -> places_sound s'.
Proof.
  unfold step, places_sound.
  destruct (threads s !! i) as [pc |] eqn:Hpc; [| discriminate].
  intros Hstep Hall.
  pose proof (Forall_lookup_1 _ _ _ _ Hall Hpc) as Hhere.
  destruct env as [na nb an ano], (shared s) as [oa ob] eqn:Hg.
  destruct pc; destruct na as [a' | e1], nb as [b' | e2]; cbn in Hstep;
    simplify_eq; cbn [shared threads];
    (apply Forall_insert;
     [ eapply Forall_impl; [exact Hall |];
       intros pc0; apply place_sound_mono; cbn; done
     | cbn in *; try done; eauto ]).
  all: destruct oa, ob; cbn in *; try tauto.
  all: destruct Hhere as [cause ->]; by exists cause.
Qed.

Lemma run_places_sound (schedule : list (nat * Env)) (s s' : System) :
  run schedule s = Some s' -> places_sound s -> places_sound s'.
Proof.
  revert s. induction schedule as [| [i env] schedule IH]; intros s; cbn [run].
  - by intros [= <-].
  - destruct (step i env s) as [s1 |] eqn:Hstep; [| discriminate].
    intros Hrun Hs. apply (IH s1 Hrun). by eapply step_places_sound.
Qed.

(** X10: even without a lock, and whatever the interleaving of callers
    that enter before any engine exists, a caller to which [_get_engines]
    returns holds two engines, never [None]; and a caller for which it
    fails gets the [RuntimeError] chained to a library exception. *)
Theorem interleaved_callers_get_engines_or_runtime_error
    (n : nat) (schedule : list (nat * Env)) (s : System) :
  run schedule (first_time_calls n) = Some s ->
  (forall i oa ob,
     threads s !! i = Some (Finished (Ok (oa, ob))) ->
     exists a b, oa = Some a /\ ob = Some b)
  /\ (forall i e,
        threads s !! i = Some (Finished (Raise e)) ->
        exists cause, e = RuntimeError init_failed_msg (LibraryError cause)).
Proof.
  intros Hrun.
  assert (Hinit : places_sound (first_time_calls n)).
  { unfold places_sound, first_time_calls. cbn [threads shared].
    apply Forall_replicate. exact I. }
  pose proof (run_places_sound schedule _ s Hrun Hinit) as Hs.
  unfold places_sound in Hs. split.
  - intros i oa ob Hi.
    pose proof (Forall_lookup_1 _ _ _ _ Hs Hi) as [Ha Hb].
    destruct oa as [a |], ob as [b |]; try discriminate. by exists a, b.
  - intros i e Hi. exact (Forall_lookup_1 _ _ _ _ Hs Hi).
Qed.

(** ** The script's own run *)

Lemma test_text_not_blank : is_blank test_text = false.
Proof. vm_compute. reflexivity. Qed.

Lemma format_entity_to_record (r : RecognizerResult) :
  format_entity (to_record r) = Ok (entity_line r).
Proof. reflexivity. Qed.

Lemma print_entities_to_record (results : list RecognizerResult) :
  print_entities (map to_record results) = (map entity_line results, Ok tt).
Proof.
  induction results as [| r results IH]; cbn [map print_entities]; [done |].
  rewrite format_entity_to_record, IH. reflexivity.
Qed.

Lemma secure_text_raise_inv
    (env : Env) (text : Text) (entities : option (list string)) (g : Globals) e :
  result (secure_text env text entities g) = Raise e ->
  result (_get_engines env g) = Raise e
  /\ events (secure_text env text entities g) = events (_get_engines env g).
Proof.
  destruct (secure_text_cases env text entities g);
    cbn [result events]; intros Hr; by simplify_eq.
Qed.

Lemma get_engines_raise_inv (env : Env) (g : Globals) e :
  result (_get_engines env g) = Raise e ->
  (exists cause,
      e = RuntimeError init_failed_msg (LibraryError cause)
      /\ construction_failure env = Some cause)
  /\ is_None (_analyzer g) || is_None (_anonymizer g) = true
  /\ List.filter is_method_call (events (_get_engines env g)) = [].
Proof.
  unfold construction_failure.
  destruct (_get_engines_spec env g) as [a b Ha Hb | a b _ Ha Hb | x Hn Ha | a x Hn Ha Hb];
    cbn [result events]; intros Hr; simplify_eq.
  - split; [| by split]. exists x. by rewrite Ha.
  - split; [| by split]. exists x. by rewrite Ha, Hb.
Qed.

Lemma secure_text_constructs_at_most_once
    (env : Env) (text : Text) (entities : option (list string)) (g : Globals) :
  (analyzer_constructions (events (secure_text env text entities g)) <= 1)%nat
  /\ (anonymizer_constructions (events (secure_text env text entities g)) <= 1)%nat.
Proof.
  assert (Hge : (analyzer_constructions (events (_get_engines env g)) <= 1)%nat
                /\ (anonymizer_constructions (events (_get_engines env g)) <= 1)%nat).
  { unfold analyzer_constructions, anonymizer_constructions.
    destruct (_get_engines_spec env g); cbn; lia. }
  unfold analyzer_constructions, anonymizer_constructions in *.
  destruct (secure_text_cases env text entities g); cbn [events];
    rewrite ?List.filter_app, ?length_app;
    cbn [List.filter is_analyzer_construction is_anonymizer_construction length];
    lia.
Qed.

Lemma no_construction_counts (h : list Event) :
  List.filter is_construction h = [] ->
  analyzer_constructions h = 0%nat /\ anonymizer_constructions h = 0%nat.
Proof.
  unfold analyzer_constructions, anonymizer_constructions, is_construction.
  induction h as [| ev h IH]; cbn [List.filter]; [done |].
  destruct (is_analyzer_construction ev), (is_anonymizer_construction ev);
    cbn [orb length]; try discriminate; exact IH.
Qed.

(** X11: with a library that raises instances of [Exception] only (what
    is raised outside [Exception] is not modelled), the script under
    [__main__] fails in one case only: the engines are missing and a
    constructor raises during [secure_text].  Then the [RuntimeError] of
    [_get_engines] ends the script after the five lines of the banner,
    before any text was analyzed.  The loop that prints the entities
    raises neither [KeyError] nor [ValueError], since every dictionary of
    [analyze_only] has the four keys and a number as score. *)
Theorem script_fails_only_at_initialization
    (env_secure env_analyze : Env) (g : Globals) (x : ScriptExn) :
  script_result (main env_secure env_analyze g) = Raise x ->
  (exists cause,
      x = Uncaught (RuntimeError init_failed_msg (LibraryError cause))
      /\ construction_failure env_secure = Some cause)
  /\ is_None (_analyzer g) || is_None (_anonymizer g) = true
  /\ printed (main env_secure env_analyze g) = banner
  /\ script_events (main env_secure env_analyze g)
     = events (_get_engines env_secure g)
  /\ List.filter is_method_call (script_events (main env_secure env_analyze g))
     = [].
Proof.
  unfold main.
  destruct (result (secure_text env_secure test_text None g))
    as [sanitized | e] eqn:Hr1.
  - pose proof (secure_text_ok_engines_set _ _ _ _ _ test_text_not_blank Hr1)
      as Hset.
    destruct (analyze_only_with_engines env_analyze test_text None _ Hset)
      as ([recs Hr2] & _ & _).
    rewrite Hr2.
    destruct (analyze_only_returns _ _ _ _ _ Hr2) as (results & -> & _).
    rewrite print_entities_to_record. cbn [script_result snd]. discriminate.
  - cbn [script_result printed script_events]. intros [= <-].
    destruct (secure_text_raise_inv _ _ _ _ _ Hr1) as [Hge Hev].
    destruct (get_engines_raise_inv _ _ _ Hge) as (Hcause & Hmissing & Hcalls).
    destruct Hcause as (cause & -> & Hfail).
    rewrite Hev. repeat split; try done. by exists cause.
Qed.

(** X12: when the script under [__main__] ends normally, it has printed
    the banner, the text that [secure_text] returned, and one line for each
    finding of the second detection, the one [analyze_only] ran, in its
    order; both globals are set at the end; and each constructor was
    invoked at most once during the whole script. *)
Theorem script_prints_what_analyze_only_found
    (env_secure env_analyze : Env) (g : Globals) :
  script_result (main env_secure env_analyze g) = Ok tt ->
  exists sanitized results,
    result (secure_text env_secure test_text None g) = Ok sanitized
    /\ result (analyze_only env_analyze test_text None
                 (final (secure_text env_secure test_text None g)))
       = Ok (map to_record results)
    /\ printed (main env_secure env_analyze g)
       = banner ++ report_heading sanitized ++ map entity_line results
    /\ engines_set (script_final (main env_secure env_analyze g))
    /\ (analyzer_constructions
          (script_events (main env_secure env_analyze g)) <= 1)%nat
    /\ (anonymizer_constructions
          (script_events (main env_secure env_analyze g)) <= 1)%nat.
Proof.
  unfold main.
  destruct (result (secure_text env_secure test_text None g))
    as [sanitized | e] eqn:Hr1; [| discriminate].
  pose proof (secure_text_ok_engines_set _ _ _ _ _ test_text_not_blank Hr1)
    as Hset.
  destruct (analyze_only_with_engines env_analyze test_text None _ Hset)
    as ([recs Hr2] & Hfinal & Hnone).
  rewrite Hr2.
  destruct (analyze_only_returns _ _ _ _ _ Hr2) as (results & -> & _).
  rewrite print_entities_to_record.
  cbn [script_result printed script_final script_events fst snd].
  intros _. exists sanitized, results.
  destruct (no_construction_counts _ Hnone) as [Hna Hnb].
  destruct (secure_text_constructs_at_most_once env_secure test_text None g)
    as [Hsa Hsb].
  rewrite analyzer_constructions_app, anonymizer_constructions_app, Hna, Hnb, Hfinal.
  repeat split; try done; lia.
Qed.

End ScriptProperties.

(** * The properties on concrete runs *)

Import Demo.

Ltac found_in_events := cbn; repeat (first [left; reflexivity | right]).

(** C3 on [secure_text("   ")] with no engine constructed yet. *)
Lemma blank_input_returns_empty_on_three_spaces :
  Forall (fun c => isspace c = true) (code_points "   ")
  /\ secure_text healthy (code_points "   ") None initial_globals
     = {| result := Ok []; final := initial_globals; events := [] |}.
Proof.
  assert (Hws : Forall (fun c => isspace c = true) (code_points "   "))
    by (repeat constructor).
  split; [exact Hws |].
  exact (proj1 (proj1 (blank_input_returns_empty_without_engine
                         healthy initial_globals None _ Hws))).
Defined.


(** C1 as stated fails: the anonymizer raises after detection found the
    name, the address and the phone number, and [secure_text] returns the
    original text, with all three in it, as a normal result. *)
Lemma secure_text_returns_unredacted_text_on_error :
  detection_or_redaction_raised
    (secure_text anonymizer_crashes contact None engines_ready) "invalid operator"
  /\ result (secure_text anonymizer_crashes contact None engines_ready)
     = Ok contact
  /\ (forall err,
        result (secure_text anonymizer_crashes contact None engines_ready)
        <> Raise err).
Proof.
  split; [| split; [reflexivity | discriminate]].
  right. exists 2%nat, contact, contact_findings, REDACTION_OPERATORS.
  found_in_events.
Qed.

(** The amended C1 when the analyzer raises. *)
Lemma analyzer_crash_returns_original_text :
  detection_or_redaction_raised
    (secure_text analyzer_crashes contact None engines_ready) "analysis failed"
  /\ result (secure_text analyzer_crashes contact None engines_ready)
     = Ok contact.
Proof.
  assert (Hraised : detection_or_redaction_raised
            (secure_text analyzer_crashes contact None engines_ready)
            "analysis failed").
  { left. exists 1%nat, contact, LEGAL_PII_ENTITIES, "en". found_in_events. }
  split; [exact Hraised |].
  exact (proj1 (detection_error_returns_original_text
                  analyzer_crashes contact None engines_ready _ Hraised)).
Defined.

(** C2 as stated fails: the analyzer raises and [analyze_only] reports an
    empty list of findings. *)
Lemma analyze_only_reports_nothing_on_analyzer_failure :
  detection_or_redaction_raised
    (analyze_only analyzer_crashes contact None engines_ready) "analysis failed"
  /\ result (analyze_only analyzer_crashes contact None engines_ready) = Ok [].
Proof.
  split; [| reflexivity].
  left. exists 1%nat, contact, LEGAL_PII_ENTITIES, "en". found_in_events.
Qed.

(** The amended C2 when the spaCy model is missing at the first call. *)
Lemma missing_model_raises_runtime_error :
  construction_failure model_missing = Some "Can't find model 'en_core_web_lg'"
  /\ result (secure_text model_missing contact None initial_globals)
     = Raise (RuntimeError init_failed_msg
                (LibraryError "Can't find model 'en_core_web_lg'"))
  /\ result (analyze_only model_missing contact None initial_globals)
     = Raise (RuntimeError init_failed_msg
                (LibraryError "Can't find model 'en_core_web_lg'")).
Proof.
  split; [reflexivity |].
  destruct (proj1 (engine_failure_behaviour
                     model_missing contact None initial_globals)
              "Can't find model 'en_core_web_lg'"
              eq_refl eq_refl eq_refl) as (Hs & Ha & _).
  split; [exact Hs | exact Ha].
Defined.

(** C5 as stated fails: the analyzer gives its findings unsorted and with
    two of them on the same digits, and [analyze_only] returns them so. *)
Lemma analyze_only_returns_overlapping_unsorted_findings :
  exists recs,
    result (analyze_only unresolved_overlaps contact None engines_ready) = Ok recs
    /\ reported_spans recs = [(40, 52); (8, 18); (44, 52)]%Z
    /\ ascending_start (reported_spans recs) = false
    /\ pairwise_disjoint (reported_spans recs) = false
    /\ well_formed_findings (Z.of_nat (length contact)) (reported_spans recs)
       = false.
Proof.
  exists (map to_record raw_findings). repeat split; reflexivity.
Qed.

(** The amended C5 on the same run. *)
Lemma analyze_only_reports_raw_findings :
  is_blank contact = false
  /\ analyze unresolved_overlaps 1%nat contact LEGAL_PII_ENTITIES "en"
     = Ok raw_findings
  /\ detection_yields
       (analyze_only unresolved_overlaps contact None engines_ready)
       contact raw_findings
  /\ result (analyze_only unresolved_overlaps contact None engines_ready)
     = Ok (map to_record raw_findings)
  /\ reported_spans (map to_record raw_findings) = map span_of raw_findings.
Proof.
  assert (Hb : is_blank contact = false) by (vm_compute; reflexivity).
  assert (Hge : result (_get_engines unresolved_overlaps engines_ready)
                = Ok (Some 1%nat, Some 2%nat)) by reflexivity.
  assert (Han : analyze unresolved_overlaps 1%nat contact
                  (or_default None LEGAL_PII_ENTITIES) "en"
                = Ok raw_findings) by reflexivity.
  destruct (analyze_only_reports_findings_as_given
              unresolved_overlaps contact None engines_ready)
    as (Hcalls & Hyields & _).
  destruct (Hcalls 1%nat 2%nat raw_findings Hb Hge Han) as [Hd Hr].
  split; [exact Hb |]. split; [exact Han |]. split; [exact Hd |].
  split; [exact Hr | exact (proj1 (proj2 (Hyields raw_findings Hd)))].
Defined.

(** C6 on the spec's scenario: the three findings handed to the anonymizer
    all resolve in the table it is given. *)
Lemma contact_findings_resolve :
  In (Call_anonymize 2%nat contact contact_findings REDACTION_OPERATORS
        (Ok {| er_text := contact_redacted |}))
     (events (secure_text healthy contact None engines_ready))
  /\ Forall (fun finding =>
               is_Some (resolve_rule REDACTION_OPERATORS (entity_type finding)))
            contact_findings.
Proof.
  assert (Hin : In (Call_anonymize 2%nat contact contact_findings
                      REDACTION_OPERATORS (Ok {| er_text := contact_redacted |}))
                   (events (secure_text healthy contact None engines_ready)))
    by found_in_events.
  split; [exact Hin |].
  exact (proj2 (proj2 (proj2 (proj2 (proj2 replacement_rule_lookup_never_fails)))
                  healthy contact None engines_ready _ _ _ _ _ Hin)).
Defined.



(** C9 as stated fails: two callers pass the test of line 37 before either
    assigns a global; the analyzer is constructed twice and the callers
    leave with different handles. *)
Lemma racing_callers_construct_twice :
  exists s,
    run racing_schedule (first_time_calls 2) = Some s
    /\ analyzer_constructions (history s) = 2%nat
    /\ threads s = [Finished (Ok (Some 1%nat, Some 2%nat));
                    Finished (Ok (Some 3%nat, Some 4%nat))].
Proof.
  eexists. split; [vm_compute; reflexivity |].
  split; vm_compute; reflexivity.
Qed.

(** The amended C9 on the same schedule. *)
Lemma racing_callers_construct_at_most_twice :
  exists s,
    run racing_schedule (first_time_calls 2) = Some s
    /\ (analyzer_constructions (history s) <= 2)%nat
    /\ (anonymizer_constructions (history s) <= 2)%nat.
Proof.
  assert (Hrun : exists s, run racing_schedule (first_time_calls 2) = Some s)
    by (eexists; vm_compute; reflexivity).
  destruct Hrun as [s Hrun].
  exists s. split; [exact Hrun |].
  exact (concurrent_callers_construct_at_most_once_each 2 racing_schedule s Hrun).
Defined.

(** C10 on the spec's scenario: with [entities=[]] both entry points ask
    the analyzer for the eleven default entity types and work on what it
    finds. *)
Lemma empty_entities_asks_for_legal_entities :
  is_blank contact = false
  /\ In (Call_analyze 1%nat contact LEGAL_PII_ENTITIES "en" (Ok contact_findings))
        (events (secure_text healthy contact (Some []) engines_ready))
  /\ In (Call_analyze 1%nat contact LEGAL_PII_ENTITIES "en" (Ok contact_findings))
        (events (analyze_only healthy contact (Some []) engines_ready))
  /\ result (analyze_only healthy contact (Some []) engines_ready)
     = Ok (map to_record contact_findings)
  /\ result (secure_text healthy contact (Some []) engines_ready)
     = Ok contact_redacted
  /\ secure_text healthy contact (Some []) engines_ready
     = secure_text healthy contact None engines_ready.
Proof.
  assert (Hb : is_blank contact = false) by (vm_compute; reflexivity).
  assert (Hge : result (_get_engines healthy engines_ready)
                = Ok (Some 1%nat, Some 2%nat)) by reflexivity.
  assert (Hne : contact_findings <> []) by discriminate.
  destruct (empty_entities_means_default_allowlist healthy contact engines_ready)
    as (Heq & _ & _ & _ & _ & Hdetect).
  destruct (Hdetect 1%nat 2%nat Hb Hge) as (Hs & Ha & Hreport & Hredact).
  split; [exact Hb |]. split; [exact Hs |]. split; [exact Ha |].
  split; [exact (Hreport contact_findings eq_refl) |].
  split; [exact (Hredact contact_findings {| er_text := contact_redacted |}
                   eq_refl Hne eq_refl)
         | exact Heq].
Defined.

(** ** The further properties on concrete runs *)

(** X3 when the caller asks for persons only. *)
Lemma persons_only_is_passed_on :
  In (Call_analyze 1%nat contact ["PERSON"] "en" (Ok contact_findings))
     (events (secure_text healthy contact (Some ["PERSON"]) engines_ready))
  /\ _analyzer (final (_get_engines healthy engines_ready)) = Some 1%nat
  /\ or_default (Some ["PERSON"]) LEGAL_PII_ENTITIES = ["PERSON"].
Proof.
  assert (Hin : In (Call_analyze 1%nat contact ["PERSON"] "en" (Ok contact_findings))
                   (events (secure_text healthy contact (Some ["PERSON"])
                              engines_ready)))
    by found_in_events.
  split; [exact Hin |].
  destruct (analyzer_called_once_on_whole_text
              healthy contact (Some ["PERSON"]) engines_ready)
    as (_ & _ & Hcall & Hlist).
  split; [exact (proj1 (Hcall _ _ _ _ _ (or_introl Hin))) | exact (Hlist _ _)].
Defined.

(** X4 on the spec's scenario. *)
Lemma contact_findings_reach_the_anonymizer :
  In (Call_anonymize 2%nat contact contact_findings REDACTION_OPERATORS
        (Ok {| er_text := contact_redacted |}))
     (events (secure_text healthy contact None engines_ready))
  /\ contact_findings <> []
  /\ _anonymizer (final (_get_engines healthy engines_ready)) = Some 2%nat.
Proof.
  assert (Hin : In (Call_anonymize 2%nat contact contact_findings
                      REDACTION_OPERATORS (Ok {| er_text := contact_redacted |}))
                   (events (secure_text healthy contact None engines_ready)))
    by found_in_events.
  split; [exact Hin |].
  destruct (proj2 (proj2 (anonymizer_called_only_on_findings
                            healthy contact None engines_ready))
              _ _ _ _ _ Hin) as (Hb & _ & _ & Hne & _).
  split; [exact Hne | exact Hb].
Defined.

(** X5 on the spec's scenario: the result is the anonymizer's text. *)
Lemma contact_output_is_the_anonymizers :
  result (secure_text healthy contact None engines_ready) = Ok contact_redacted
  /\ ((is_blank contact = true /\ contact_redacted = [])
      \/ (is_blank contact = false /\ contact_redacted = contact
          /\ forall b t' results operators redacted,
               ~ In (Call_anonymize b t' results operators (Ok redacted))
                    (events (secure_text healthy contact None engines_ready)))
      \/ (is_blank contact = false
          /\ exists b results redacted,
               In (Call_anonymize b contact results REDACTION_OPERATORS
                     (Ok redacted))
                  (events (secure_text healthy contact None engines_ready))
               /\ contact_redacted = er_text redacted)).
Proof.
  assert (Hr : result (secure_text healthy contact None engines_ready)
               = Ok contact_redacted)
    by (vm_compute; reflexivity).
  split; [exact Hr |].
  exact (secure_text_output_origin healthy contact None engines_ready _ Hr).
Defined.

(** X7 when the spaCy model is missing at the first call. *)
Lemma missing_model_is_the_only_failure :
  result (analyze_only model_missing contact None initial_globals)
  = Raise (RuntimeError init_failed_msg
             (LibraryError "Can't find model 'en_core_web_lg'"))
  /\ result (_get_engines model_missing initial_globals)
     = Raise (RuntimeError init_failed_msg
                (LibraryError "Can't find model 'en_core_web_lg'")).
Proof.
  assert (Hr : result (analyze_only model_missing contact None initial_globals)
               = Raise (RuntimeError init_failed_msg
                          (LibraryError "Can't find model 'en_core_web_lg'")))
    by (vm_compute; reflexivity).
  split; [exact Hr |].
  exact (proj1 (only_initialization_error_escapes
                  model_missing contact None initial_globals _
                  (or_intror (or_intror Hr)))).
Defined.

(** X8: with the engines there, a crashing analyzer fails no call. *)
Lemma crashing_analyzer_fails_no_call :
  engines_set engines_ready
  /\ (exists t,
         result (secure_text analyzer_crashes contact None engines_ready) = Ok t)
  /\ final (secure_text analyzer_crashes contact None engines_ready)
     = engines_ready.
Proof.
  assert (Hset : engines_set engines_ready).
  { exists 1%nat, 2%nat. split; reflexivity. }
  split; [exact Hset |].
  destruct (entry_points_safe_once_engines_exist
              analyzer_crashes contact None engines_ready Hset)
    as (Hs & _ & Hf & _).
  split; [exact Hs | exact Hf].
Defined.

(** X9: the first call of [secure_text] leaves both engines in place. *)
Lemma first_call_leaves_engines_set :
  is_blank contact = false
  /\ result (secure_text healthy contact None initial_globals)
     = Ok contact_redacted
  /\ engines_set (final (secure_text healthy contact None initial_globals)).
Proof.
  assert (Hb : is_blank contact = false) by (vm_compute; reflexivity).
  assert (Hr : result (secure_text healthy contact None initial_globals)
               = Ok contact_redacted)
    by (vm_compute; reflexivity).
  split; [exact Hb |]. split; [exact Hr |].
  exact (proj1 (proj2 (returning_call_leaves_engines_set
                         healthy contact None initial_globals) Hb)
           _ Hr).
Defined.

(** X10 on the racing schedule: both callers leave with engines. *)
Lemma racing_callers_hold_engines :
  exists s,
    run racing_schedule (first_time_calls 2) = Some s
    /\ (forall i oa ob,
          threads s !! i = Some (Finished (Ok (oa, ob))) ->
          exists a b, oa = Some a /\ ob = Some b).
Proof.
  assert (Hrun : exists s, run racing_schedule (first_time_calls 2) = Some s)
    by (eexists; vm_compute; reflexivity).
  destruct Hrun as [s Hrun].
  exists s. split; [exact Hrun |].
  exact (proj1 (interleaved_callers_get_engines_or_runtime_error
                  2 racing_schedule s Hrun)).
Defined.

(** X11: the script when the spaCy model is missing. *)
Lemma script_stops_after_banner_without_model :
  script_result (main model_missing healthy initial_globals)
  = Raise (Uncaught (RuntimeError init_failed_msg
                       (LibraryError "Can't find model 'en_core_web_lg'")))
  /\ printed (main model_missing healthy initial_globals) = banner.
Proof.
  assert (Hr : script_result (main model_missing healthy initial_globals)
               = Raise (Uncaught (RuntimeError init_failed_msg
                          (LibraryError "Can't find model 'en_core_web_lg'"))))
    by (vm_compute; reflexivity).
  split; [exact Hr |].
  exact (proj1 (proj2 (proj2 (script_fails_only_at_initialization
                                model_missing healthy initial_globals _ Hr)))).
Defined.

(** X12: the script with a working library. *)
Lemma script_runs_to_the_end :
  script_result (main healthy healthy initial_globals) = Ok tt
  /\ exists sanitized results,
       result (secure_text healthy test_text None initial_globals) = Ok sanitized
       /\ result (analyze_only healthy test_text None
                    (final (secure_text healthy test_text None initial_globals)))
          = Ok (map to_record results)
       /\ printed (main healthy healthy initial_globals)
          = banner ++ report_heading sanitized ++ map entity_line results
       /\ engines_set (script_final (main healthy healthy initial_globals))
       /\ (analyzer_constructions
             (script_events (main healthy healthy initial_globals)) <= 1)%nat
       /\ (anonymizer_constructions
             (script_events (main healthy healthy initial_globals)) <= 1)%nat.
Proof.
  assert (Hr : script_result (main healthy healthy initial_globals) = Ok tt)
    by (vm_compute; reflexivity).
  split; [exact Hr |].
  exact (script_prints_what_analyze_only_found healthy healthy initial_globals Hr).
Defined.

(** X13 on the spec's scenario: three findings, one of each type. *)
Lemma contact_redaction_is_logged :
  In (Log INFO (Redacted 3 [("PERSON", 1%Z); ("EMAIL_ADDRESS", 1%Z);
                            ("PHONE_NUMBER", 1%Z)]))
     (events (secure_text healthy contact None engines_ready))
  /\ exists b results redacted,
       In (Call_anonymize b contact results REDACTION_OPERATORS (Ok redacted))
          (events (secure_text healthy contact None engines_ready))
       /\ detection_yields (secure_text healthy contact None engines_ready)
            contact results
       /\ 3%nat = length results
       /\ [("PERSON", 1%Z); ("EMAIL_ADDRESS", 1%Z); ("PHONE_NUMBER", 1%Z)]
          = count_entities results
       /\ result (secure_text healthy contact None engines_ready)
          = Ok (er_text redacted).
Proof.
  assert (Hin : In (Log INFO (Redacted 3 [("PERSON", 1%Z);
                                          ("EMAIL_ADDRESS", 1%Z);
                                          ("PHONE_NUMBER", 1%Z)]))
                   (events (secure_text healthy contact None engines_ready)))
    by found_in_events.
  split; [exact Hin |].
  exact (proj2 (proj1 (redaction_logged_with_analyzer_tally
                         healthy contact None engines_ready)
                  _ _ _ Hin)).
Defined.

(** X14 when the analyzer raises: the empty list comes with the error. *)
Lemma empty_report_after_crash_is_logged :
  result (analyze_only analyzer_crashes contact None engines_ready) = Ok []
  /\ ((is_blank contact = true
       /\ events (analyze_only analyzer_crashes contact None engines_ready) = [])
      \/ detection_yields
           (analyze_only analyzer_crashes contact None engines_ready) contact []
      \/ exists x,
           detection_or_redaction_raised
             (analyze_only analyzer_crashes contact None engines_ready) x
           /\ In (Log ERROR (Error_during_analysis (LibraryError x)))
                 (events (analyze_only analyzer_crashes contact None
                            engines_ready))).
Proof.
  assert (Hr : result (analyze_only analyzer_crashes contact None engines_ready)
               = Ok [])
    by (vm_compute; reflexivity).
  split; [exact Hr |].
  exact (proj1 (empty_report_has_three_causes
                  analyzer_crashes contact None engines_ready) Hr).
Defined.
